(** * QueueForge: the queueing models and the simulation engine

    A shallow embedding of [models/QueueingModel.ts] (M/M/c),
    [models/MMCKQueueingModel.ts] (M/M/c/K),
    [simulation/QueueSimulation.ts] (the time-stepped engine), the geometry
    of [visualization/ChartRenderer.ts] and the timer of [App.tsx].

    Numbers.  A JavaScript [number] is an IEEE 754 binary64 value, and the
    file has two models of it.

    - [Binary64.number] is the binary64 value itself, the kernel's primitive
      float: every operation rounds to nearest, overflows to Infinity and
      propagates NaN as the engine's does.  The two model classes are
      evaluated in it ([MMCQueueingModel], [MMCKQueueingModel]).
    - [Num.number] is an exact rational or one of the three non-finite
      values, with a single zero; its arithmetic does not round.  It carries
      the simulation engine, whose state is a set of integer counters, and
      the branch that the M/M/c class takes on a parameter set
      ([QueueingModel]).  What is stated on it is about integers, about one
      operation, or about a comparison that rounding preserves.

    Counters of the simulation, server counts and capacities are integers
    ([Z]). *)

From Stdlib Require Import ZArith QArith Qabs Qpower Qminmax Qround Lia Lqa List Bool.
From Stdlib Require Floats.PrimFloat Floats.SpecFloat Floats.FloatOps Floats.FloatAxioms.
Import ListNotations.

Set Warnings "-inexact-float".

Local Open Scope Z_scope.

(** ** Loops *)

(** [for (let i = start; ...; i++) acc = body i acc], run [iters] times. *)
Fixpoint for_loop {A : Type} (iters : nat) (i : Z) (body : Z -> A -> A) (acc : A) : A :=
  match iters with
  | O => acc
  | S n => for_loop n (i + 1) body (body i acc)
  end.

(** ** Exact numbers *)

Module Num.

Inductive number : Type :=
| Fin (q : Q)
| PosInf
| NegInf
| NaN.

Definition of_Z (z : Z) : number := Fin (inject_Z z).

Definition sgn (x : number) : Z :=
  match x with
  | Fin q => Z.sgn (Qnum q)
  | PosInf => 1
  | NegInf => -1
  | NaN => 0
  end.

Definition inf_of_sign (s : Z) : number :=
  match s with
  | Z0 => NaN
  | Zpos _ => PosInf
  | Zneg _ => NegInf
  end.

Definition neg (x : number) : number :=
  match x with
  | Fin q => Fin (- q)%Q
  | PosInf => NegInf
  | NegInf => PosInf
  | NaN => NaN
  end.

Definition add (x y : number) : number :=
  match x, y with
  | NaN, _ | _, NaN => NaN
  | Fin a, Fin b => Fin (a + b)%Q
  | PosInf, NegInf | NegInf, PosInf => NaN
  | PosInf, _ | _, PosInf => PosInf
  | NegInf, _ | _, NegInf => NegInf
  end.

Definition sub (x y : number) : number :=
  match x, y with
  | Fin a, Fin b => Fin (a - b)%Q
  | _, _ => add x (neg y)
  end.

Definition mul (x y : number) : number :=
  match x, y with
  | NaN, _ | _, NaN => NaN
  | Fin a, Fin b => Fin (a * b)%Q
  | _, _ => inf_of_sign (sgn x * sgn y)
  end.

Definition div (x y : number) : number :=
  match x, y with
  | NaN, _ | _, NaN => NaN
  | Fin a, Fin b => if Qeq_bool b 0 then inf_of_sign (sgn x) else Fin (a / b)%Q
  | Fin _, _ => Fin 0
  | _, Fin _ => inf_of_sign (sgn x * (if sgn y <? 0 then -1 else 1))
  | _, _ => NaN
  end.

Definition abs (x : number) : number :=
  match x with
  | Fin q => Fin (Qabs q)
  | PosInf | NegInf => PosInf
  | NaN => NaN
  end.

(** [Math.pow(x, n)] for an integer exponent [n]. *)
Definition pow (x : number) (n : Z) : number :=
  match n with
  | Z0 => Fin 1
  | Zpos _ =>
      match x with
      | Fin q => Fin (q ^ n)%Q
      | PosInf => PosInf
      | NegInf => if Z.odd n then NegInf else PosInf
      | NaN => NaN
      end
  | Zneg _ =>
      match x with
      | Fin q => if Qeq_bool q 0 then PosInf else Fin (q ^ n)%Q
      | PosInf | NegInf => Fin 0
      | NaN => NaN
      end
  end.

(** Comparison; [None] when an operand is [NaN], so that every relational
    operator is then false. *)
Definition compare (x y : number) : option comparison :=
  match x, y with
  | NaN, _ | _, NaN => None
  | Fin a, Fin b => Some (a ?= b)%Q
  | PosInf, PosInf | NegInf, NegInf => Some Eq
  | PosInf, _ | _, NegInf => Some Gt
  | _, PosInf | NegInf, _ => Some Lt
  end.

Definition ltb (x y : number) : bool :=
  match compare x y with Some Lt => true | _ => false end.
Definition gtb (x y : number) : bool :=
  match compare x y with Some Gt => true | _ => false end.
Definition leb (x y : number) : bool :=
  match compare x y with Some Lt | Some Eq => true | _ => false end.
Definition geb (x y : number) : bool :=
  match compare x y with Some Gt | Some Eq => true | _ => false end.

(** The same value: rationals up to [Qeq], the non-finite values exactly. *)
Definition num_eq (x y : number) : Prop :=
  match x, y with
  | Fin a, Fin b => (a == b)%Q
  | PosInf, PosInf | NegInf, NegInf | NaN, NaN => True
  | _, _ => False
  end.

Definition is_finite (x : number) : bool :=
  match x with Fin _ => true | _ => false end.

End Num.

Import Num.

Declare Scope num_scope.
Delimit Scope num_scope with num.
Infix "=n=" := num_eq (at level 70, no associativity) : num_scope.

(** ** The simulation engine: simulation/QueueSimulation.ts

    The rates, the time step and the clock are exact numbers; the draws of
    [Math.random] are arbitrary. *)

Module Simulation.

Record SimulationState : Type := {
  currentTime : Q;
  queueLength : Z;
  serversBusy : Z;
  totalArrivals : Z;
  totalServed : Z;
  cumulativeQueueLength : Z;
  timeSteps : Z
}.

(** The interface declares the first four fields.  [maxCapacity] is the
    extra property that App.tsx passes to [updateConfig]
    ([maxCapacity: selectedModel === 'MMCK' ? maxCapacity : undefined]);
    the object spread keeps it on the live configuration.  [None] is
    [undefined]. *)
Record SimulationConfig : Type := {
  arrivalRate : Q;
  serviceRate : Q;
  numServers : Z;
  timeStep : Q;
  maxCapacity : option Z
}.

(** [Partial<SimulationConfig>]: [None] is a property that is not present. *)
Record PartialConfig : Type := {
  arrivalRate' : option Q;
  serviceRate' : option Q;
  numServers' : option Z;
  timeStep' : option Q;
  maxCapacity' : option (option Z)
}.

(** The object: its two private fields. *)
Record QueueSimulation : Type := {
  state : SimulationState;
  config : SimulationConfig
}.

(** *** Math.random

    The process-wide source is the sequence of values it will return and
    the number of values already drawn. *)
Record Rng : Type := {
  draws : nat -> Q;
  drawn : nat
}.

Definition Rand (A : Type) : Type := Rng -> A * Rng.

Definition ret {A : Type} (a : A) : Rand A := fun g => (a, g).

Definition bind {A B : Type} (m : Rand A) (k : A -> Rand B) : Rand B :=
  fun g => let (a, g') := m g in k a g'.

Notation "x <- m ;; k" := (bind m (fun x => k))
  (at level 61, m at next level, right associativity).

Definition random : Rand Q :=
  fun g => (draws g (drawn g), {| draws := draws g; drawn := S (drawn g) |}).

Definition Qltb (x y : Q) : bool :=
  match (x ?= y)%Q with Lt => true | _ => false end.

(** *** Methods *)

Definition getInitialState : SimulationState :=
  {| currentTime := 0;
     queueLength := 0;
     serversBusy := 0;
     totalArrivals := 0;
     totalServed := 0;
     cumulativeQueueLength := 0;
     timeSteps := 0 |}.

Definition construct (cfg : SimulationConfig) : QueueSimulation :=
  {| state := getInitialState; config := cfg |}.

Definition reset (sim : QueueSimulation) : QueueSimulation :=
  {| state := getInitialState; config := config sim |}.

(** One property of [{ ...old, ...partial }]. *)
Definition spread {A : Type} (old : A) (new : option A) : A :=
  match new with
  | Some v => v
  | None => old
  end.

Definition updateConfig (sim : QueueSimulation) (partial : PartialConfig) : QueueSimulation :=
  {| state := state sim;
     config :=
       {| arrivalRate := spread (arrivalRate (config sim)) (arrivalRate' partial);
          serviceRate := spread (serviceRate (config sim)) (serviceRate' partial);
          numServers := spread (numServers (config sim)) (numServers' partial);
          timeStep := spread (timeStep (config sim)) (timeStep' partial);
          maxCapacity := spread (maxCapacity (config sim)) (maxCapacity' partial) |} |}.

Definition getState (sim : QueueSimulation) : SimulationState := state sim.
Definition getQueueLength (sim : QueueSimulation) : Z := queueLength (state sim).
Definition getCurrentTime (sim : QueueSimulation) : Q := currentTime (state sim).

Definition getAverageQueueLength (sim : QueueSimulation) : number :=
  if timeSteps (state sim) =? 0 then Fin 0
  else div (of_Z (cumulativeQueueLength (state sim))) (of_Z (timeSteps (state sim))).

(** The loop of the service trials: one draw per busy server. *)
Definition serviceTrials (serversCurrentlyBusy : Z) (serviceCompletionProb : Q) : Rand Z :=
  fun g =>
    for_loop (Z.to_nat serversCurrentlyBusy) 0
      (fun _ (acc : Z * Rng) =>
         let (completions, g) := acc in
         let (r, g') := random g in
         (if Qltb r serviceCompletionProb then completions + 1 else completions, g'))
      (0, g).

Definition step (sim : QueueSimulation) : Rand QueueSimulation :=
  let cfg := config sim in
  let st := state sim in
  let arrivalRatePerSec := (arrivalRate cfg / 60)%Q in
  let serviceRatePerSec := (serviceRate cfg / 60)%Q in
  let arrivalProbability := (arrivalRatePerSec * timeStep cfg)%Q in
  r <- random ;;
  let arrivals := if Qltb r arrivalProbability then 1 else 0 in
  let totalArrivals1 :=
    if arrivals >? 0 then totalArrivals st + arrivals else totalArrivals st in
  let queueLength1 :=
    if arrivals >? 0 then queueLength st + arrivals else queueLength st in
  let serversCurrentlyBusy := Z.min (queueLength1 + serversBusy st) (numServers cfg) in
  completions <- serviceTrials serversCurrentlyBusy (serviceRatePerSec * timeStep cfg)%Q ;;
  let totalServed1 := totalServed st + completions in
  let customersToServe := Z.min queueLength1 completions in
  let queueLength2 := queueLength1 - customersToServe in
  let serversBusy1 := Z.max 0 (serversCurrentlyBusy - completions) in
  let queueLength3 := Z.max 0 queueLength2 in
  ret {| state :=
           {| currentTime := (currentTime st + timeStep cfg)%Q;
              queueLength := queueLength3;
              serversBusy := serversBusy1;
              totalArrivals := totalArrivals1;
              totalServed := totalServed1;
              cumulativeQueueLength := cumulativeQueueLength st + queueLength3;
              timeSteps := timeSteps st + 1 |};
         config := cfg |}.

(** [n] successive calls of [step()]. *)
Fixpoint steps (n : nat) (sim : QueueSimulation) : Rand QueueSimulation :=
  match n with
  | O => ret sim
  | S n' => sim' <- step sim ;; steps n' sim'
  end.

End Simulation.

(** ** The M/M/c model on exact numbers: models/QueueingModel.ts

    The class with exact arithmetic, for the branch that it takes. *)

(** [private static factorial(n)] *)
Definition factorial (n : Z) : number :=
  if n <=? 1 then Fin 1
  else for_loop (Z.to_nat (n - 1)) 2 (fun i result => mul result (of_Z i)) (Fin 1).

Module QueueingModel.

Record QueueingParameters : Type := {
  arrivalRate : Q;
  serviceRate : Q;
  numServers : Z
}.

Record QueueMetrics : Type := {
  utilization : number;
  averageQueueLength : number;
  averageSystemLength : number;
  averageWaitTime : number;
  averageSystemTime : number;
  isStable : bool
}.

Definition calculateUtilization (params : QueueingParameters) : number :=
  div (Fin (arrivalRate params))
      (mul (Fin (serviceRate params)) (of_Z (numServers params))).

Definition isSystemStable (params : QueueingParameters) : bool :=
  ltb (calculateUtilization params) (Fin 1).

Definition calculateErlangC (params : QueueingParameters) : number :=
  let c := numServers params in
  let a := div (Fin (arrivalRate params)) (Fin (serviceRate params)) in
  if geb a (of_Z c) then Fin 1
  else
    let numerator := div (pow a c) (factorial c) in
    let numerator := mul numerator (div (of_Z c) (sub (of_Z c) a)) in
    let denominator :=
      for_loop (Z.to_nat c) 0
        (fun k denominator => add denominator (div (pow a k) (factorial k)))
        (Fin 0) in
    let denominator := add denominator numerator in
    div numerator denominator.

Definition calculateAverageQueueLength (params : QueueingParameters) : number :=
  if negb (isSystemStable params) then PosInf
  else
    let rho := calculateUtilization params in
    let erlangC := calculateErlangC params in
    div (mul erlangC rho) (sub (Fin 1) rho).

Definition calculateAverageSystemLength (params : QueueingParameters) : number :=
  if negb (isSystemStable params) then PosInf
  else
    let lq := calculateAverageQueueLength params in
    add lq (div (Fin (arrivalRate params)) (Fin (serviceRate params))).

Definition calculateAverageWaitTime (params : QueueingParameters) : number :=
  if negb (isSystemStable params) then PosInf
  else
    let lq := calculateAverageQueueLength params in
    div lq (Fin (arrivalRate params)).

Definition calculateAverageSystemTime (params : QueueingParameters) : number :=
  if negb (isSystemStable params) then PosInf
  else
    let l := calculateAverageSystemLength params in
    div l (Fin (arrivalRate params)).

Definition calculateMetrics (params : QueueingParameters) : QueueMetrics :=
  let utilization := calculateUtilization params in
  let isStable := isSystemStable params in
  if negb isStable then
    {| utilization := utilization;
       averageQueueLength := PosInf;
       averageSystemLength := PosInf;
       averageWaitTime := PosInf;
       averageSystemTime := PosInf;
       isStable := false |}
  else
    {| utilization := utilization;
       averageQueueLength := calculateAverageQueueLength params;
       averageSystemLength := calculateAverageSystemLength params;
       averageWaitTime := calculateAverageWaitTime params;
       averageSystemTime := calculateAverageSystemTime params;
       isStable := true |}.

End QueueingModel.



(** ** Binary64 numbers *)

Module Binary64.
Import PrimFloat SpecFloat FloatOps.
Local Open Scope float_scope.

Definition number : Set := float.

(** The number nearest to an integer.  An integer below 2^53 in absolute
    value, as a server count or a loop counter is, is that number
    exactly. *)
Definition of_Z (z : Z) : number := SF2Prim (binary_normalize prec emax z 0 false).

(** The integer that a number is, when it is one. *)
Definition to_Z (x : number) : option Z :=
  match Prim2SF x with
  | S754_zero _ => Some 0%Z
  | S754_finite s m e =>
      let v := if s then Z.neg m else Z.pos m in
      if (0 <=? e)%Z then Some (v * 2 ^ e)%Z
      else if (Z.pos m mod 2 ^ (- e) =? 0)%Z then Some (v / 2 ^ (- e))%Z
      else None
  | S754_infinity _ | S754_nan => None
  end.



(** *** Math.pow

    ECMAScript leaves the precision of [Math.pow] to the implementation, so
    the model classes below take it as a parameter, [Math_pow], and their
    theorems hold for every function in its place.

    [pow_int] is the implementation that the concrete inputs are run with:
    integral exponents, by repeated squaring.  It is exact for the exponents
    0 and 1 and for a power of two that is a number, and a power far above
    the largest number is Infinity; the concrete inputs below use it there,
    and at one input where the order of magnitude of the power decides. *)
Fixpoint pow_pos (x : number) (p : positive) : number :=
  match p with
  | xH => x
  | xO q => let y := pow_pos x q in y * y
  | xI q => let y := pow_pos x q in x * (y * y)
  end.

Definition pow_int (x y : number) : number :=
  match to_Z y with
  | Some Z0 => 1
  | Some (Zpos p) => pow_pos x p
  | Some (Zneg p) => 1 / pow_pos x p
  | None => nan
  end.

End Binary64.

(** ** The M/M/c model in binary64: models/QueueingModel.ts *)

Module MMCQueueingModel.
Import PrimFloat Binary64.
Local Open Scope float_scope.

Record QueueingParameters : Type := {
  arrivalRate : number;
  serviceRate : number;
  numServers : Z
}.

Record QueueMetrics : Type := {
  utilization : number;
  averageQueueLength : number;
  averageSystemLength : number;
  averageWaitTime : number;
  averageSystemTime : number;
  isStable : bool
}.

Definition factorial (n : Z) : number :=
  if (n <=? 1)%Z then 1
  else for_loop (Z.to_nat (n - 1)) 2%Z (fun i result => result * of_Z i) 1.

Definition calculateUtilization (params : QueueingParameters) : number :=
  arrivalRate params / (serviceRate params * of_Z (numServers params)).

Definition isSystemStable (params : QueueingParameters) : bool :=
  calculateUtilization params <? 1.

Section Math.

Variable Math_pow : number -> number -> number.

(** [a >= numServers] is [numServers <= a]. *)
Definition calculateErlangC (params : QueueingParameters) : number :=
  let numServers := numServers params in
  let a := arrivalRate params / serviceRate params in
  if of_Z numServers <=? a then 1
  else
    let numerator := Math_pow a (of_Z numServers) / factorial numServers in
    let numerator := numerator * (of_Z numServers / (of_Z numServers - a)) in
    let denominator :=
      for_loop (Z.to_nat numServers) 0%Z
        (fun k denominator => denominator + Math_pow a (of_Z k) / factorial k) 0 in
    let denominator := denominator + numerator in
    numerator / denominator.

Definition calculateAverageQueueLength (params : QueueingParameters) : number :=
  if negb (isSystemStable params) then infinity
  else
    let rho := calculateUtilization params in
    let erlangC := calculateErlangC params in
    (erlangC * rho) / (1 - rho).

Definition calculateAverageSystemLength (params : QueueingParameters) : number :=
  if negb (isSystemStable params) then infinity
  else
    let lq := calculateAverageQueueLength params in
    lq + (arrivalRate params / serviceRate params).

Definition calculateAverageWaitTime (params : QueueingParameters) : number :=
  if negb (isSystemStable params) then infinity
  else
    let lq := calculateAverageQueueLength params in
    lq / arrivalRate params.

Definition calculateAverageSystemTime (params : QueueingParameters) : number :=
  if negb (isSystemStable params) then infinity
  else
    let l := calculateAverageSystemLength params in
    l / arrivalRate params.

Definition calculateMetrics (params : QueueingParameters) : QueueMetrics :=
  let utilization := calculateUtilization params in
  let isStable := isSystemStable params in
  if negb isStable then
    {| utilization := utilization;
       averageQueueLength := infinity;
       averageSystemLength := infinity;
       averageWaitTime := infinity;
       averageSystemTime := infinity;
       isStable := false |}
  else
    {| utilization := utilization;
       averageQueueLength := calculateAverageQueueLength params;
       averageSystemLength := calculateAverageSystemLength params;
       averageWaitTime := calculateAverageWaitTime params;
       averageSystemTime := calculateAverageSystemTime params;
       isStable := true |}.

End Math.

End MMCQueueingModel.

(** ** The M/M/c/K model in binary64: models/MMCKQueueingModel.ts *)

Module MMCKQueueingModel.
Import PrimFloat Binary64.
Local Open Scope float_scope.

Record MMCKQueueingParameters : Type := {
  arrivalRate : number;
  serviceRate : number;
  numServers : Z;
  maxCapacity : Z
}.

Record MMCKQueueMetrics : Type := {
  utilization : number;
  averageQueueLength : number;
  averageSystemLength : number;
  averageWaitTime : number;
  averageSystemTime : number;
  rejectionProbability : number;
  isStable : bool
}.

Definition factorial (n : Z) : number :=
  if (n <=? 1)%Z then 1
  else for_loop (Z.to_nat (n - 1)) 2%Z (fun i result => result * of_Z i) 1.

Section Math.

Variable Math_pow : number -> number -> number.

Definition calculateP0 (params : MMCKQueueingParameters) : number :=
  let a := arrivalRate params / serviceRate params in
  let rho := arrivalRate params / (of_Z (numServers params) * serviceRate params) in
  let c := numServers params in
  let K := maxCapacity params in
  let sum1 :=
    for_loop (Z.to_nat c) 0%Z
      (fun k sum1 => sum1 + Math_pow a (of_Z k) / factorial k) 0 in
  let acOverCFact := Math_pow a (of_Z c) / factorial c in
  let sum2 :=
    if abs (rho - 1) <? 1e-10
    then acOverCFact * (of_Z K - of_Z c + 1)
    else acOverCFact * (1 - Math_pow rho (of_Z K - of_Z c + 1)) / (1 - rho) in
  1 / (sum1 + sum2).

Definition calculateRejectionProbability (params : MMCKQueueingParameters) : number :=
  let a := arrivalRate params / serviceRate params in
  let rho := arrivalRate params / (of_Z (numServers params) * serviceRate params) in
  let c := numServers params in
  let K := maxCapacity params in
  let p0 := calculateP0 params in
  if (K <=? c)%Z then p0 * Math_pow a (of_Z K) / factorial K
  else p0 * (Math_pow a (of_Z c) / factorial c) * Math_pow rho (of_Z K - of_Z c).

Definition calculateAverageQueueLength (params : MMCKQueueingParameters) : number :=
  let a := arrivalRate params / serviceRate params in
  let rho := arrivalRate params / (of_Z (numServers params) * serviceRate params) in
  let c := numServers params in
  let K := maxCapacity params in
  let p0 := calculateP0 params in
  let acOverCFact := Math_pow a (of_Z c) / factorial c in
  if abs (rho - 1) <? 1e-10
  then acOverCFact * p0 * ((of_Z K - of_Z c) * (of_Z K - of_Z c + 1)) / 2
  else
    let n := of_Z K - of_Z c in
    let numerator :=
      1 - Math_pow rho (n + 1) - (n + 1) * Math_pow rho n * (1 - rho) in
    (acOverCFact * rho * p0 * numerator) / Math_pow (1 - rho) 2.

Definition calculateMetrics (params : MMCKQueueingParameters) : MMCKQueueMetrics :=
  let rho := arrivalRate params / (of_Z (numServers params) * serviceRate params) in
  let rejectionProbability := calculateRejectionProbability params in
  let lambdaEff := arrivalRate params * (1 - rejectionProbability) in
  let lq := calculateAverageQueueLength params in
  let l := lq + (if 0 <? lambdaEff then lambdaEff / serviceRate params else 0) in
  let wq := if 0 <? lambdaEff then lq / lambdaEff else 0 in
  let w := if 0 <? lambdaEff then l / lambdaEff else 0 in
  {| utilization := rho;
     averageQueueLength := lq;
     averageSystemLength := l;
     averageWaitTime := wq;
     averageSystemTime := w;
     rejectionProbability := rejectionProbability;
     isStable := true |}.

End Math.

End MMCKQueueingModel.

(** ** The formulas of the specification, in binary64

    Each formula is evaluated as it is written, from left to right, every
    operation rounded. *)

Module Formulas.
Import PrimFloat Binary64.
Local Open Scope float_scope.

(** The sum of [f k] for [k] from 0 to [n - 1], in that order. *)
Fixpoint sum_upto (f : nat -> number) (n : nat) : number :=
  match n with
  | O => 0
  | S m => sum_upto f m + f m
  end.

(** [k!] as a number: the product of 1, 2, ..., [k] in that order. *)
Fixpoint product_upto (k : nat) : number :=
  match k with
  | O => 1
  | S j => product_upto j * of_Z (Z.of_nat (S j))
  end.

(** [k!] as an integer. *)
Fixpoint factorial_Z (k : nat) : Z :=
  match k with
  | O => 1%Z
  | S j => (factorial_Z j * Z.of_nat (S j))%Z
  end.

Section Math.

Variable Math_pow : number -> number -> number.

(** [a^k / k!] *)
Definition load_term (a : number) (k : Z) : number :=
  Math_pow a (of_Z k) / product_upto (Z.to_nat k).

(** The sum of [a^k / k!] for [k] from 0 to [c - 1]. *)
Definition sum1 (a : number) (c : Z) : number :=
  sum_upto (fun k => load_term a (Z.of_nat k)) (Z.to_nat c).

(** Erlang C: numerator [(a^c / c!) * (c / (c - a))], denominator the sum
    of [a^k / k!] for [k < c] plus the numerator. *)
Definition erlangC (a : number) (c : Z) : number :=
  let numerator := load_term a c * (of_Z c / (of_Z c - a)) in
  numerator / (sum1 a c + numerator).

End Math.

End Formulas.

(** ** Three statements of the specification, as it has them *)

Module Claims.
Import PrimFloat Binary64.
Local Open Scope float_scope.



(** With lambda_eff = lambda * (1 - Pb): isStable, L = Lq + lambda_eff/mu,
    Wq = Lq/lambda_eff and W = L/lambda_eff, and Wq = W = 0 when
    lambda_eff = 0. *)
Definition effective_rate_claim (Math_pow : number -> number -> number)
    (p : MMCKQueueingModel.MMCKQueueingParameters) : Prop :=
  let m := MMCKQueueingModel.calculateMetrics Math_pow p in
  let Pb := MMCKQueueingModel.rejectionProbability m in
  let Lq := MMCKQueueingModel.averageQueueLength m in
  let L := MMCKQueueingModel.averageSystemLength m in
  let Wq := MMCKQueueingModel.averageWaitTime m in
  let W := MMCKQueueingModel.averageSystemTime m in
  let lambdaEff := MMCKQueueingModel.arrivalRate p * (1 - Pb) in
  MMCKQueueingModel.isStable m = true /\
  L = Lq + lambdaEff / MMCKQueueingModel.serviceRate p /\
  ((lambdaEff =? 0) = true -> Wq = 0 /\ W = 0) /\
  ((lambdaEff =? 0) = false -> Wq = Lq / lambdaEff /\ W = L / lambdaEff).

End Claims.

(** ** Parameter sets *)

Module Inputs.
Import PrimFloat Binary64.
Local Open Scope float_scope.

(** The M/M/1 queue of the repository's test. *)
Definition mm1 : MMCQueueingModel.QueueingParameters :=
  {| MMCQueueingModel.arrivalRate := 6; MMCQueueingModel.serviceRate := 10;
     MMCQueueingModel.numServers := 1 |}.

(** One server at utilisation 5/8. *)
Definition five_eighths : MMCQueueingModel.QueueingParameters :=
  {| MMCQueueingModel.arrivalRate := 5; MMCQueueingModel.serviceRate := 8;
     MMCQueueingModel.numServers := 1 |}.

(** 171 servers at utilisation 170/171. *)
Definition call_centre : MMCQueueingModel.QueueingParameters :=
  {| MMCQueueingModel.arrivalRate := 170; MMCQueueingModel.serviceRate := 1;
     MMCQueueingModel.numServers := 171 |}.

(** Three servers with an offered load that is 3 after rounding. *)
Definition rounded_load : MMCQueueingModel.QueueingParameters :=
  {| MMCQueueingModel.arrivalRate := 3.9; MMCQueueingModel.serviceRate := 1.3;
     MMCQueueingModel.numServers := 3 |}.

(** lambda = 3 + 2^-49, mu = 1 + 3 * 2^-52, three servers: a utilisation
    just below 1 that rounds to 1. *)
Definition nearly_critical : MMCQueueingModel.QueueingParameters :=
  {| MMCQueueingModel.arrivalRate := 0x1.8000000000004p+1;
     MMCQueueingModel.serviceRate := 0x1.0000000000003p+0;
     MMCQueueingModel.numServers := 3 |}.

(** One server at utilisation 1/2, capacity 5. *)
Definition half_loaded : MMCKQueueingModel.MMCKQueueingParameters :=
  {| MMCKQueueingModel.arrivalRate := 8; MMCKQueueingModel.serviceRate := 16;
     MMCKQueueingModel.numServers := 1; MMCKQueueingModel.maxCapacity := 5 |}.

(** One server at utilisation 1, capacity 3. *)
Definition balanced : MMCKQueueingModel.MMCKQueueingParameters :=
  {| MMCKQueueingModel.arrivalRate := 8; MMCKQueueingModel.serviceRate := 8;
     MMCKQueueingModel.numServers := 1; MMCKQueueingModel.maxCapacity := 3 |}.

(** Two servers and no waiting room: K = c. *)
Definition no_queue : MMCKQueueingModel.MMCKQueueingParameters :=
  {| MMCKQueueingModel.arrivalRate := 8; MMCKQueueingModel.serviceRate := 16;
     MMCKQueueingModel.numServers := 2; MMCKQueueingModel.maxCapacity := 2 |}.

(** One server at utilisation 1 + 2^-34, inside the tolerance band around
    1, with capacity 2^40 + 1. *)
Definition overload : MMCKQueueingModel.MMCKQueueingParameters :=
  {| MMCKQueueingModel.arrivalRate := 0x1.000000004p+0;
     MMCKQueueingModel.serviceRate := 1;
     MMCKQueueingModel.numServers := 1;
     MMCKQueueingModel.maxCapacity := 1099511627777 |}.

(** An arrival rate of 2^60 on one server of capacity 3. *)
Definition flooded : MMCKQueueingModel.MMCKQueueingParameters :=
  {| MMCKQueueingModel.arrivalRate := 0x1p+60; MMCKQueueingModel.serviceRate := 1;
     MMCKQueueingModel.numServers := 1; MMCKQueueingModel.maxCapacity := 3 |}.

(** One server at utilisation 100, capacity 1000. *)
Definition long_queue : MMCKQueueingModel.MMCKQueueingParameters :=
  {| MMCKQueueingModel.arrivalRate := 100; MMCKQueueingModel.serviceRate := 1;
     MMCKQueueingModel.numServers := 1; MMCKQueueingModel.maxCapacity := 1000 |}.

End Inputs.

(** ** Invariants of the engine *)

Module Invariants.
Import Simulation.

(** The bounds on a state, for a number of servers. *)
Definition in_bounds (c : Z) (st : SimulationState) : Prop :=
  0 <= queueLength st /\ 0 <= serversBusy st <= c.

(** With a single server the accounting is exact: the customers that
    arrived and were not served are the queue. *)
Definition single_server_inv (st : SimulationState) : Prop :=
  totalArrivals st - totalServed st = queueLength st /\
  0 <= queueLength st /\ 0 <= serversBusy st <= 1 /\
  (queueLength st = 0 -> serversBusy st = 0).

End Invariants.

(** ** Concrete runs of the engine *)

Module Runs.
Import Simulation.

(** A source that returns the listed values, then 1 for ever. *)
Definition rng_of (l : list Q) : Rng :=
  {| draws := fun i => nth i l 1%Q; drawn := 0 |}.

(** Two servers; the arrival probability of a step is 1/60 and the
    completion probability of a busy server is 1/50. *)
Definition two_servers : SimulationConfig :=
  {| arrivalRate := 10; serviceRate := 12; numServers := 2;
     timeStep := 1 # 10; maxCapacity := None |}.

(** Step 1: an arrival, its one service trial fails.  Step 2: no arrival,
    both service trials succeed. *)
Definition one_arrival_two_completions : Rng :=
  rng_of [0; 1 # 2; 1 # 2; 0; 0]%Q.

(** One server; the arrival probability of a step is 1/10 and the
    completion probability 1/600.  [maxCapacity] is set the way App.tsx
    sets it, through [updateConfig]. *)
Definition one_server : SimulationConfig :=
  {| arrivalRate := 60; serviceRate := 1; numServers := 1;
     timeStep := 1 # 10; maxCapacity := None |}.

Definition capacity_two : PartialConfig :=
  {| arrivalRate' := None; serviceRate' := None; numServers' := None;
     timeStep' := None; maxCapacity' := Some (Some 2) |}.

Definition bounded_sim : QueueSimulation :=
  updateConfig (construct one_server) capacity_two.

(** Every draw is 1/20: an arrival in every step, no completion. *)
Definition arrivals_only : Rng :=
  {| draws := fun _ => (1 # 20)%Q; drawn := 0 |}.

Definition sampled_state : SimulationState :=
  {| currentTime := 4 # 10; queueLength := 2; serversBusy := 1;
     totalArrivals := 3; totalServed := 1;
     cumulativeQueueLength := 6; timeSteps := 4 |}.

End Runs.

(** ** The rest of the engine: [simulate] *)

Module SimulationRun.
Import Simulation.

(** [while (this.state.currentTime < targetTime) { this.step();
    samples.push(this.state.queueLength); }].  The loop has no bound of its
    own: [fuel] bounds the number of tests of the condition, and [None] is
    a loop still running when the fuel is spent. *)
Fixpoint simulate_loop (fuel : nat) (targetTime : Q) (sim : QueueSimulation)
    (samples : list Z) : Rand (option (list Z * QueueSimulation)) :=
  match fuel with
  | O => ret None
  | S fuel' =>
      if Qltb (currentTime (state sim)) targetTime
      then sim' <- step sim ;;
           simulate_loop fuel' targetTime sim' (samples ++ [queueLength (state sim')])
      else ret (Some (samples, sim))
  end.

(** [simulate(duration)]: the samples and the object after the run. *)
Definition simulate (fuel : nat) (duration : Q) (sim : QueueSimulation)
  : Rand (option (list Z * QueueSimulation)) :=
  let targetTime := (currentTime (state sim) + duration)%Q in
  simulate_loop fuel targetTime sim [].

End SimulationRun.

(** ** The chart: visualization/ChartRenderer.ts

    The geometry of the renderer; the colours of the configuration and the
    canvas calls that consume the coordinates are left out. *)

Module ChartRenderer.

Local Open Scope Q_scope.

Record DataPoint : Type := {
  time : Q;
  queueLength : Q
}.

Record Padding : Type := {
  top : Q;
  right : Q;
  bottom : Q;
  left : Q
}.

Record ChartConfig : Type := {
  width : Q;
  height : Q;
  padding : Padding
}.

Record ChartArea : Type := {
  area_x : Q;
  area_y : Q;
  area_width : Q;
  area_height : Q
}.

Record Scales : Type := {
  scale_x : Q -> Q;
  scale_y : Q -> Q;
  maxTime : Q;
  maxQueue : Q
}.

Definition getChartArea (config : ChartConfig) : ChartArea :=
  {| area_x := left (padding config);
     area_y := top (padding config);
     area_width := width config - left (padding config) - right (padding config);
     area_height := height config - top (padding config) - bottom (padding config) |}.

(** [Math.max(...values, last)] *)
Definition Math_max (values : list Q) (last : Q) : Q :=
  fold_right Qmax last values.

Definition calculateScales (data : list DataPoint) (chartArea : ChartArea) : Scales :=
  let maxTime := Math_max (map time data) 60 in
  let maxQueue := Math_max (map queueLength data) 10 in
  {| scale_x := fun time => area_x chartArea + (time / maxTime) * area_width chartArea;
     scale_y := fun queue =>
       area_y chartArea + area_height chartArea - (queue / maxQueue) * area_height chartArea;
     maxTime := maxTime;
     maxQueue := maxQueue |}.

End ChartRenderer.

(** ** The timer of the page: App.tsx *)

Module App.
Import Simulation.

(** [array.slice(-n)]: the last [n] elements, all of them when there are
    fewer. *)
Definition slice_last {A : Type} (n : nat) (l : list A) : list A :=
  skipn (length l - n) l.

(** The update of [setData]: append the sample, keep the last 600. *)
Definition record_sample (prevData : list ChartRenderer.DataPoint)
    (currentTime : Q) (queueLength : Z) : list ChartRenderer.DataPoint :=
  let newData :=
    prevData ++ [{| ChartRenderer.time := currentTime;
                    ChartRenderer.queueLength := inject_Z queueLength |}] in
  slice_last 600 newData.

(** One tick of the interval while the simulation runs:
    [Math.ceil(simulationSpeed)] steps, then one sample. *)
Definition tick (simulationSpeed : Q) (sim : QueueSimulation)
    (data : list ChartRenderer.DataPoint)
  : Rand (QueueSimulation * list ChartRenderer.DataPoint) :=
  let stepsToRun := Qceiling simulationSpeed in
  sim' <- steps (Z.to_nat stepsToRun) sim ;;
  let currentTime := getCurrentTime sim' in
  let queueLength := getQueueLength sim' in
  ret (sim', record_sample data currentTime queueLength).

End App.

(** ** Further concrete inputs *)

Module Samples.

(** Three servers where there were two. *)
Definition three_servers : Simulation.PartialConfig :=
  {| Simulation.arrivalRate' := None; Simulation.serviceRate' := None;
     Simulation.numServers' := Some 3; Simulation.timeStep' := None;
     Simulation.maxCapacity' := None |}.

(** A service rate of zero. *)
Definition no_service : QueueingModel.QueueingParameters :=
  {| QueueingModel.arrivalRate := 5; QueueingModel.serviceRate := 0;
     QueueingModel.numServers := 1 |}.

(** [DEFAULT_CHART_CONFIG] without its colours. *)
Definition DEFAULT_CHART_CONFIG : ChartRenderer.ChartConfig :=
  {| ChartRenderer.width := 800; ChartRenderer.height := 400;
     ChartRenderer.padding :=
       {| ChartRenderer.top := 20; ChartRenderer.right := 20;
          ChartRenderer.bottom := 40; ChartRenderer.left := 50 |} |}.

Definition origin : ChartRenderer.DataPoint :=
  {| ChartRenderer.time := 0; ChartRenderer.queueLength := 0 |}.

Definition late_point : ChartRenderer.DataPoint :=
  {| ChartRenderer.time := 90; ChartRenderer.queueLength := 3 |}.

End Samples.

(** * Properties *)

(** ** The simulation engine *)

Module SimulationProofs.
Import Simulation Invariants.

(** A loop that adds at most one per iteration. *)
Lemma for_loop_counter (body : Z -> Z * Rng -> Z * Rng) :
  (forall i c g, c <= fst (body i (c, g)) <= c + 1) ->
  forall n i c g,
    c <= fst (for_loop n i body (c, g)) <= c + Z.of_nat n.
Proof.
  intros Hbody n. induction n as [|n IH]; intros i c g.
  - simpl. lia.
  - cbn [for_loop]. specialize (Hbody i c g).
    destruct (body i (c, g)) as [c' g'] eqn:E. cbn [fst] in Hbody.
    specialize (IH (i + 1) c' g'). lia.
Qed.

Lemma serviceTrials_range (busy : Z) (prob : Q) (g : Rng) :
  0 <= fst (serviceTrials busy prob g) <= Z.max 0 busy.
Proof.
  unfold serviceTrials.
  pose proof (for_loop_counter
    (fun (_ : Z) (acc : Z * Rng) =>
       let (completions, g0) := acc in
       let (r, g') := random g0 in
       (if Qltb r prob then completions + 1 else completions, g'))) as H.
  cbv beta in H.
  specialize (H (fun i c g0 => ltac:(cbn; destruct (Qltb _ _); cbn; lia))
                (Z.to_nat busy) 0 0 g).
  lia.
Qed.

(** The state after one step, with the draws named. *)
Lemma step_state (sim : QueueSimulation) (g : Rng) :
  let cfg := config sim in
  let st := state sim in
  let arrivals :=
    if Qltb (draws g (drawn g)) (arrivalRate cfg / 60 * timeStep cfg) then 1 else 0 in
  let g1 := {| draws := draws g; drawn := S (drawn g) |} in
  let busy := Z.min (queueLength st + arrivals + serversBusy st) (numServers cfg) in
  let completions := fst (serviceTrials busy (serviceRate cfg / 60 * timeStep cfg) g1) in
  let q := Z.max 0 (queueLength st + arrivals - Z.min (queueLength st + arrivals) completions) in
  fst (step sim g) =
    {| state :=
         {| currentTime := (currentTime st + timeStep cfg)%Q;
            queueLength := q;
            serversBusy := Z.max 0 (busy - completions);
            totalArrivals := totalArrivals st + arrivals;
            totalServed := totalServed st + completions;
            cumulativeQueueLength := cumulativeQueueLength st + q;
            timeSteps := timeSteps st + 1 |};
       config := cfg |}.
Proof.
  cbv zeta. unfold step, bind, ret, random. cbv zeta.
  destruct (Qltb (draws g (drawn g)) _) eqn:Ea; cbn [Z.gtb Z.compare];
    rewrite ?Z.add_0_r;
    match goal with
    | |- context [serviceTrials ?b ?p ?g1] => destruct (serviceTrials b p g1) as [c g2]
    end; reflexivity.
Qed.

Lemma step_config (sim : QueueSimulation) (g : Rng) :
  config (fst (step sim g)) = config sim.
Proof. rewrite step_state. reflexivity. Qed.

Lemma steps_config (n : nat) :
  forall sim g, config (fst (steps n sim g)) = config sim.
Proof.
  induction n as [|n IH]; intros sim g; [reflexivity|].
  cbn [steps]. unfold bind.
  destruct (step sim g) as [sim' g'] eqn:E.
  rewrite IH. change sim' with (fst (sim', g')). rewrite <- E. apply step_config.
Qed.

Lemma step_in_bounds (sim : QueueSimulation) (g : Rng) :
  0 <= numServers (config sim) ->
  in_bounds (numServers (config sim)) (state (fst (step sim g))).
Proof.
  intros Hc. rewrite step_state. unfold in_bounds. cbn.
  match goal with
  | |- context [serviceTrials ?b ?p ?g1] =>
      pose proof (serviceTrials_range b p g1) as Hr
  end.
  lia.
Qed.

Lemma steps_in_bounds (n : nat) :
  forall sim g,
    0 <= numServers (config sim) ->
    in_bounds (numServers (config sim)) (state sim) ->
    in_bounds (numServers (config sim)) (state (fst (steps n sim g))).
Proof.
  induction n as [|n IH]; intros sim g Hc Hinv; [exact Hinv|].
  cbn [steps]. unfold bind.
  pose proof (step_in_bounds sim g Hc) as Hs.
  pose proof (step_config sim g) as Hcfg.
  destruct (step sim g) as [sim' g']. cbn [fst] in Hs, Hcfg.
  rewrite <- Hcfg. apply IH; rewrite Hcfg; assumption.
Qed.

(** C8: from the zero-initialised state, for every source of random draws
    and every number of [step()] calls, the queue length is not negative
    and the number of busy servers lies between 0 and [numServers] (a
    configuration has a number of servers that is not negative). *)
Theorem steps_state_bounds (cfg : SimulationConfig) (g : Rng) (n : nat) :
  0 <= numServers cfg ->
  let st := state (fst (steps n (construct cfg) g)) in
  0 <= queueLength st /\ 0 <= serversBusy st <= numServers cfg.
Proof.
  intros Hc. cbv zeta.
  apply (steps_in_bounds n (construct cfg) g Hc).
  unfold in_bounds. cbn. lia.
Qed.

Lemma step_single_server (sim : QueueSimulation) (g : Rng) :
  numServers (config sim) = 1 ->
  single_server_inv (state sim) ->
  single_server_inv (state (fst (step sim g))).
Proof.
  intros Hc (Hacc & Hq & Hb & Hz). rewrite step_state.
  unfold single_server_inv. cbn. rewrite Hc.
  match goal with
  | |- context [serviceTrials ?b ?p ?g1] =>
      pose proof (serviceTrials_range b p g1) as Hr;
      destruct (serviceTrials b p g1) as [k g2]
  end.
  cbn [fst] in *.
  destruct (Qltb _ _); lia.
Qed.

Lemma steps_single_server (n : nat) :
  forall sim g,
    numServers (config sim) = 1 ->
    single_server_inv (state sim) ->
    single_server_inv (state (fst (steps n sim g))).
Proof.
  induction n as [|n IH]; intros sim g Hc Hinv; [exact Hinv|].
  cbn [steps]. unfold bind.
  pose proof (step_single_server sim g Hc Hinv) as Hs.
  pose proof (step_config sim g) as Hcfg.
  destruct (step sim g) as [sim' g']. cbn [fst] in Hs, Hcfg.
  apply IH; [congruence | assumption].
Qed.

(** The invariant of C1 does hold for a single server, which is the only
    case the repository's test exercises. *)
Lemma served_le_arrivals_single_server (cfg : SimulationConfig) (g : Rng) (n : nat) :
  numServers cfg = 1 ->
  let st := state (fst (steps n (construct cfg) g)) in
  totalServed st <= totalArrivals st.
Proof.
  intros Hc. cbv zeta.
  destruct (steps_single_server n (construct cfg) g Hc) as (Hacc & Hq & _).
  - unfold single_server_inv. cbn. lia.
  - lia.
Qed.

(** C1, at the failing input: with two servers, one arrival whose first
    service trial fails is counted both in [queueLength] and in
    [serversBusy]; the next step runs two service trials for that one
    customer, both succeed, and [totalServed] = 2 exceeds
    [totalArrivals] = 1. *)
Theorem served_exceeds_arrivals :
  let st := state (fst (steps 2 (construct Runs.two_servers)
                                Runs.one_arrival_two_completions)) in
  totalArrivals st = 1 /\ totalServed st = 2 /\ ~ totalServed st <= totalArrivals st.
Proof. vm_compute. repeat split; try reflexivity. intros H; apply H; reflexivity. Qed.

(** [step] does not read [maxCapacity]. *)
Lemma step_ignores_maxCapacity (st : SimulationState) (cfg : SimulationConfig)
    (K K' : option Z) (g : Rng) :
  let with_cap k :=
    {| state := st;
       config := {| arrivalRate := arrivalRate cfg; serviceRate := serviceRate cfg;
                    numServers := numServers cfg; timeStep := timeStep cfg;
                    maxCapacity := k |} |} in
  state (fst (step (with_cap K) g)) = state (fst (step (with_cap K') g)).
Proof. cbv zeta. rewrite !step_state. reflexivity. Qed.

(** C2, at the failing input: [maxCapacity] = 2 is configured, every step
    has an arrival and no completion, and the third arrival is admitted:
    it is counted in [totalArrivals] and the queue alone holds 3
    customers. *)
Theorem arrival_admitted_beyond_maxCapacity :
  maxCapacity (config Runs.bounded_sim) = Some 2 /\
  let before := state (fst (steps 2 Runs.bounded_sim Runs.arrivals_only)) in
  let after := state (fst (steps 3 Runs.bounded_sim Runs.arrivals_only)) in
  queueLength before = 2 /\ serversBusy before = 1 /\ totalArrivals before = 2 /\
  queueLength after = 3 /\ serversBusy after = 1 /\ totalArrivals after = 3.
Proof. vm_compute. repeat split; reflexivity. Qed.

(** C9: [updateConfig(partial)] leaves the state as it is, and each field
    of the new configuration is the one of [partial] when [partial] has it
    and the old one otherwise. *)
Theorem updateConfig_frame (sim : QueueSimulation) (partial : PartialConfig) :
  state (updateConfig sim partial) = state sim /\
  config (updateConfig sim partial) =
    {| arrivalRate :=
         match arrivalRate' partial with Some v => v | None => arrivalRate (config sim) end;
       serviceRate :=
         match serviceRate' partial with Some v => v | None => serviceRate (config sim) end;
       numServers :=
         match numServers' partial with Some v => v | None => numServers (config sim) end;
       timeStep :=
         match timeStep' partial with Some v => v | None => timeStep (config sim) end;
       maxCapacity :=
         match maxCapacity' partial with Some v => v | None => maxCapacity (config sim) end |}.
Proof. split; reflexivity. Qed.

Lemma inject_Z_nonzero (z : Z) : z <> 0 -> Qeq_bool (inject_Z z) 0 = false.
Proof.
  intros Hz. destruct (Qeq_bool (inject_Z z) 0) eqn:E; [|reflexivity].
  apply Qeq_bool_iff in E. unfold Qeq in E. cbn in E. lia.
Qed.

(** C10: [getAverageQueueLength()] is 0 when no step was taken, and the
    quotient [cumulativeQueueLength / timeSteps] once [timeSteps] is
    positive. *)
Theorem getAverageQueueLength_spec (sim : QueueSimulation) :
  (timeSteps (state sim) = 0 -> getAverageQueueLength sim = Fin 0) /\
  (0 < timeSteps (state sim) ->
   getAverageQueueLength sim =
     Fin (inject_Z (cumulativeQueueLength (state sim)) / inject_Z (timeSteps (state sim)))).
Proof.
  unfold getAverageQueueLength. split; intros H.
  - rewrite H. reflexivity.
  - destruct (Z.eqb_spec (timeSteps (state sim)) 0) as [E|E]; [lia|].
    unfold div, of_Z. rewrite inject_Z_nonzero by assumption. reflexivity.
Qed.

Lemma steps_state_bounds_witness :
  0 <= numServers Runs.two_servers /\
  let st := state (fst (steps 2 (construct Runs.two_servers)
                                Runs.one_arrival_two_completions)) in
  0 <= queueLength st /\ 0 <= serversBusy st <= numServers Runs.two_servers.
Proof.
  split; [cbn; lia|].
  apply (steps_state_bounds Runs.two_servers Runs.one_arrival_two_completions 2).
  cbn; lia.
Defined.

Lemma getAverageQueueLength_witness :
  getAverageQueueLength (construct Runs.one_server) = Fin 0 /\
  getAverageQueueLength {| state := Runs.sampled_state; config := Runs.one_server |} =
    Fin (inject_Z 6 / inject_Z 4).
Proof.
  split.
  - apply (proj1 (getAverageQueueLength_spec (construct Runs.one_server))). reflexivity.
  - apply (proj2 (getAverageQueueLength_spec
                    {| state := Runs.sampled_state; config := Runs.one_server |})).
    reflexivity.
Defined.

End SimulationProofs.

(** ** Numbers *)

Module NumFacts.
Local Open Scope Q_scope.

Lemma num_eq_refl (x : number) : (x =n= x)%num.
Proof. destruct x; cbn; auto. reflexivity. Qed.

Lemma num_eq_sym (x y : number) : (x =n= y)%num -> (y =n= x)%num.
Proof. destruct x, y; cbn; auto. intros H; symmetry; exact H. Qed.

Lemma num_eq_trans (x y z : number) :
  (x =n= y)%num -> (y =n= z)%num -> (x =n= z)%num.
Proof.
  destruct x, y, z; cbn; auto; try contradiction.
  intros H1 H2. rewrite H1. exact H2.
Qed.

#[export] Instance num_eq_equiv : Equivalence num_eq :=
  {| Equivalence_Reflexive := num_eq_refl;
     Equivalence_Symmetric := num_eq_sym;
     Equivalence_Transitive := num_eq_trans |}.






End NumFacts.

(** ** The M/M/c model on exact numbers *)

Module QueueingModelProofs.
Import QueueingModel NumFacts.
Local Open Scope Q_scope.




(** *** At utilisation 1 *)



End QueueingModelProofs.

(** ** Binary64 numbers *)

Module Binary64Facts.
Import PrimFloat SpecFloat FloatOps FloatAxioms Binary64.
Local Open Scope float_scope.

(** The last iteration of a loop. *)
Lemma for_loop_snoc {A : Type} (n : nat) :
  forall (i : Z) (body : Z -> A -> A) (acc : A),
    for_loop (S n) i body acc = body (i + Z.of_nat n)%Z (for_loop n i body acc).
Proof.
  induction n as [|n IH]; intros i body acc.
  - cbn [for_loop]. replace (i + Z.of_nat 0)%Z with i by lia. reflexivity.
  - change (for_loop (S (S n)) i body acc) with (for_loop (S n) (i + 1) body (body i acc)).
    rewrite IH. cbn [for_loop]. f_equal. lia.
Qed.

(** A loop that adds a term per iteration is the sum of the terms. *)
Lemma sum_loop (f : nat -> number) (term : Z -> number) (n : nat) :
  (forall k, term (Z.of_nat k) = f k) ->
  for_loop n 0%Z (fun k s => s + term k) 0 = Formulas.sum_upto f n.
Proof.
  intros Hterm. induction n as [|n IH]; [reflexivity|].
  rewrite for_loop_snoc, IH. cbn [Formulas.sum_upto]. rewrite Z.add_0_l, Hterm. reflexivity.
Qed.

(** The loop of [factorial], from [i = 2]. *)
Lemma product_loop (m : nat) :
  for_loop m 2%Z (fun i result => result * of_Z i) 1 = Formulas.product_upto (S m).
Proof.
  induction m as [|m IH]; [vm_compute; reflexivity|].
  rewrite for_loop_snoc, IH.
  change (Formulas.product_upto (S (S m)))
    with (Formulas.product_upto (S m) * of_Z (Z.of_nat (S (S m)))).
  f_equal. f_equal. lia.
Qed.

(** Comparisons, from their specification. *)
Lemma compare_cont_antisym (m1 m2 : positive) :
  PosDef.Pos.compare_cont Eq m2 m1 = CompOpp (PosDef.Pos.compare_cont Eq m1 m2).
Proof. symmetry. exact (Pos.compare_cont_antisym m1 m2 Eq). Qed.

Lemma SFcompare_antisym (x y : spec_float) :
  SFcompare y x = option_map CompOpp (SFcompare x y).
Proof.
  destruct x as [s1|s1| |s1 m1 e1], y as [s2|s2| |s2 m2 e2]; cbn;
    try destruct s1; try destruct s2; cbn; try reflexivity;
    rewrite (Z.compare_antisym e1 e2);
    destruct (e1 ?= e2)%Z; cbn; try reflexivity;
    rewrite (compare_cont_antisym m1 m2); reflexivity.
Qed.

(** [x < y] excludes [y <= x]. *)
Lemma ltb_not_leb (x y : number) : (x <? y) = true -> (y <=? x) = false.
Proof.
  rewrite ltb_spec, leb_spec. unfold SFltb, SFleb.
  rewrite (SFcompare_antisym (Prim2SF x) (Prim2SF y)).
  destruct (SFcompare (Prim2SF x) (Prim2SF y)) as [[]|]; cbn; congruence.
Qed.

(** A zero, of either sign, is not above 0. *)
Lemma eqb_zero_not_positive (x : number) : (x =? 0) = true -> (0 <? x) = false.
Proof.
  rewrite eqb_spec, ltb_spec. unfold SFeqb, SFltb.
  rewrite (SFcompare_antisym (Prim2SF x) (Prim2SF 0)).
  destruct (SFcompare (Prim2SF x) (Prim2SF 0)) as [[]|]; cbn; congruence.
Qed.







End Binary64Facts.

(** ** The M/M/c model in binary64 *)

Module MMCQueueingModelProofs.
Import PrimFloat Binary64 MMCQueueingModel Binary64Facts.
Local Open Scope float_scope.

(** [factorial] is the rounded product. *)
Lemma factorial_product (n : Z) : factorial n = Formulas.product_upto (Z.to_nat n).
Proof.
  unfold factorial. destruct (Z.leb_spec n 1) as [H|H].
  - destruct (Z.eq_dec n 1) as [->|Hn]; [vm_compute; reflexivity|].
    replace (Z.to_nat n) with 0%nat by lia. reflexivity.
  - rewrite product_loop. f_equal. lia.
Qed.

(** The loop of the partial sums of [a^k / k!]. *)
Lemma load_sum (Math_pow : number -> number -> number) (a : number) (c : Z) :
  for_loop (Z.to_nat c) 0%Z
    (fun k denominator => denominator + Math_pow a (of_Z k) / factorial k) 0 =
  Formulas.sum1 Math_pow a c.
Proof.
  unfold Formulas.sum1. apply sum_loop. intros k.
  unfold Formulas.load_term. rewrite factorial_product. reflexivity.
Qed.

(** The value of [calculateErlangC] below the short cut. *)
Lemma erlangC_formula (Math_pow : number -> number -> number) (p : QueueingParameters) :
  (of_Z (numServers p) <=? arrivalRate p / serviceRate p) = false ->
  calculateErlangC Math_pow p =
    Formulas.erlangC Math_pow (arrivalRate p / serviceRate p) (numServers p).
Proof.
  intros H. unfold calculateErlangC. cbv zeta. rewrite H.
  rewrite load_sum, factorial_product. reflexivity.
Qed.




(** *** Values of the model *)

(** lambda = 6, mu = 10, c = 1: the repository's test expects
    Lq close to 0.9. *)
Example mm1_metrics :
  calculateMetrics pow_int Inputs.mm1 =
    {| utilization := 0.6;
       averageQueueLength := 0.8999999999999999;
       averageSystemLength := 1.5;
       averageWaitTime := 0.15;
       averageSystemTime := 0.25;
       isStable := true |}.
Proof. vm_compute. reflexivity. Qed.

(** lambda = 5, mu = 8, c = 1: L and lambda * W differ in the last bit. *)
Example little_law_rounding :
  let m := calculateMetrics pow_int Inputs.five_eighths in
  averageSystemLength m = 1.6666666666666667 /\
  arrivalRate Inputs.five_eighths * averageSystemTime m = 1.666666666666667 /\
  (averageSystemLength m =? arrivalRate Inputs.five_eighths * averageSystemTime m) = false.
Proof. vm_compute. repeat split. Qed.

(** lambda = 3.9, mu = 1.3, c = 3: the utilisation rounds below 1 and the
    offered load rounds to 3, so the system is reported stable while
    [calculateErlangC] takes its short cut. *)
Example stability_tests_disagree :
  calculateUtilization Inputs.rounded_load = 0.9999999999999999 /\
  isSystemStable Inputs.rounded_load = true /\
  arrivalRate Inputs.rounded_load / serviceRate Inputs.rounded_load = 3 /\
  calculateErlangC pow_int Inputs.rounded_load = 1.
Proof. vm_compute. repeat split. Qed.

(** A utilisation below 1 that rounds to 1 is reported unstable. *)
Example nearly_critical_unstable :
  calculateUtilization Inputs.nearly_critical = 1 /\
  isSystemStable Inputs.nearly_critical = false /\
  averageQueueLength (calculateMetrics pow_int Inputs.nearly_critical) = infinity.
Proof. vm_compute. repeat split. Qed.

(** lambda = 170, mu = 1, c = 171. *)
Example call_centre_metrics :
  calculateErlangC pow_int Inputs.call_centre = nan /\
  calculateMetrics pow_int Inputs.call_centre =
    {| utilization := 0.9941520467836257;
       averageQueueLength := nan;
       averageSystemLength := nan;
       averageWaitTime := nan;
       averageSystemTime := nan;
       isStable := true |}.
Proof. vm_compute. repeat split. Qed.

(** *** The theorems at concrete parameters *)






End MMCQueueingModelProofs.

(** ** The M/M/c/K model in binary64 *)

Module MMCKQueueingModelProofs.
Import PrimFloat Binary64 MMCKQueueingModel Binary64Facts.
Local Open Scope float_scope.

Lemma factorial_product_mmck (n : Z) : factorial n = Formulas.product_upto (Z.to_nat n).
Proof. exact (MMCQueueingModelProofs.factorial_product n). Qed.

Lemma load_term_code (Math_pow : number -> number -> number) (a : number) (k : Z) :
  Math_pow a (of_Z k) / factorial k = Formulas.load_term Math_pow a k.
Proof. unfold Formulas.load_term. rewrite factorial_product_mmck. reflexivity. Qed.

Lemma load_sum_mmck (Math_pow : number -> number -> number) (a : number) (c : Z) :
  for_loop (Z.to_nat c) 0%Z
    (fun k sum1 => sum1 + Math_pow a (of_Z k) / factorial k) 0 =
  Formulas.sum1 Math_pow a c.
Proof. exact (MMCQueueingModelProofs.load_sum Math_pow a c). Qed.

(** C5: with a = lambda/mu and rho = lambda/(c mu), [calculateP0] returns
    1/(sum1 + sum2), where sum1 is the sum of a^k/k! for k from 0 to c - 1
    and sum2 is (a^c/c!) * (K - c + 1) when |rho - 1| < 1e-10 and
    (a^c/c!) * (1 - rho^(K-c+1)) / (1 - rho) otherwise; and
    [calculateRejectionProbability] returns P0 * a^K / K! when K <= c and
    P0 * (a^c/c!) * rho^(K-c) when K > c.  Each formula is the binary64
    value of the expression, for every [Math.pow]. *)
Theorem calculateP0_and_rejection (Math_pow : number -> number -> number)
    (p : MMCKQueueingParameters) :
  let a := arrivalRate p / serviceRate p in
  let rho := arrivalRate p / (of_Z (numServers p) * serviceRate p) in
  let c := numServers p in
  let K := maxCapacity p in
  let sum1 := Formulas.sum1 Math_pow a c in
  let P0 := calculateP0 Math_pow p in
  ((abs (rho - 1) <? 1e-10) = true ->
   P0 = 1 / (sum1 + Formulas.load_term Math_pow a c * (of_Z K - of_Z c + 1))) /\
  ((abs (rho - 1) <? 1e-10) = false ->
   P0 = 1 / (sum1 + Formulas.load_term Math_pow a c
                    * (1 - Math_pow rho (of_Z K - of_Z c + 1)) / (1 - rho))) /\
  ((K <= c)%Z ->
   calculateRejectionProbability Math_pow p =
     P0 * Math_pow a (of_Z K) / Formulas.product_upto (Z.to_nat K)) /\
  ((c < K)%Z ->
   calculateRejectionProbability Math_pow p =
     P0 * Formulas.load_term Math_pow a c * Math_pow rho (of_Z K - of_Z c)).
Proof.
  cbv zeta. unfold calculateRejectionProbability, calculateP0. cbv zeta.
  rewrite load_sum_mmck, load_term_code.
  split; [|split; [|split]].
  - intros H. rewrite H. reflexivity.
  - intros H. rewrite H. reflexivity.
  - intros H. rewrite (proj2 (Z.leb_le _ _) H). rewrite factorial_product_mmck. reflexivity.
  - intros H. rewrite (proj2 (Z.leb_gt _ _) H). reflexivity.
Qed.

(** C7, amended: [calculateMetrics] returns isStable = true, Pb and Lq as
    the two functions compute them, and with lambda_eff = lambda * (1 - Pb):
    when lambda_eff > 0, L = Lq + lambda_eff/mu, Wq = Lq/lambda_eff and
    W = L/lambda_eff; in every other case, a lambda_eff that is negative or
    NaN included, L = Lq + 0 and Wq = W = 0; lambda_eff = 0 is such a
    case. *)
Theorem calculateMetrics_effective_rate (Math_pow : number -> number -> number)
    (p : MMCKQueueingParameters) :
  let m := calculateMetrics Math_pow p in
  let Pb := rejectionProbability m in
  let Lq := averageQueueLength m in
  let L := averageSystemLength m in
  let Wq := averageWaitTime m in
  let W := averageSystemTime m in
  let lambdaEff := arrivalRate p * (1 - Pb) in
  isStable m = true /\
  Pb = calculateRejectionProbability Math_pow p /\
  Lq = calculateAverageQueueLength Math_pow p /\
  ((0 <? lambdaEff) = true ->
   L = Lq + lambdaEff / serviceRate p /\ Wq = Lq / lambdaEff /\ W = L / lambdaEff) /\
  ((0 <? lambdaEff) = false -> L = Lq + 0 /\ Wq = 0 /\ W = 0) /\
  ((lambdaEff =? 0) = true -> L = Lq + 0 /\ Wq = 0 /\ W = 0).
Proof.
  cbv zeta.
  assert (Hother :
    (0 <? arrivalRate p * (1 - rejectionProbability (calculateMetrics Math_pow p))) = false ->
    averageSystemLength (calculateMetrics Math_pow p) =
      averageQueueLength (calculateMetrics Math_pow p) + 0 /\
    averageWaitTime (calculateMetrics Math_pow p) = 0 /\
    averageSystemTime (calculateMetrics Math_pow p) = 0).
  { unfold calculateMetrics. cbv zeta.
    cbn [rejectionProbability averageQueueLength averageSystemLength
         averageWaitTime averageSystemTime].
    intros Hcmp. rewrite Hcmp. repeat split. }
  do 3 (split; [reflexivity|]).
  split; [|split; [exact Hother|]].
  - unfold calculateMetrics. cbv zeta.
    cbn [rejectionProbability averageQueueLength averageSystemLength
         averageWaitTime averageSystemTime].
    intros Hcmp. rewrite Hcmp. repeat split.
  - intros Hzero. apply Hother. apply eqb_zero_not_positive. exact Hzero.
Qed.

(** C7, as stated, fails at utilisation 1 + 2^-34 with capacity 2^40 + 1:
    the utilisation is inside the tolerance band, sum2 takes its linear
    form while Pb takes rho^(K-c), Pb exceeds 1 and lambda_eff is negative;
    Wq is 0 where the statement has Lq/lambda_eff. *)
Theorem effective_rate_claim_fails : ~ Claims.effective_rate_claim pow_int Inputs.overload.
Proof.
  intros (_ & _ & _ & H).
  assert (Hne : (arrivalRate Inputs.overload
                   * (1 - rejectionProbability (calculateMetrics pow_int Inputs.overload))
                   =? 0) = false) by (vm_compute; reflexivity).
  destruct (H Hne) as [Hwq _].
  apply (f_equal (fun x => x =? 0)) in Hwq. vm_compute in Hwq. discriminate Hwq.
Qed.

(** *** Values of the model *)

Example overload_metrics :
  let m := calculateMetrics pow_int Inputs.overload in
  (abs (utilization m - 1) <? 1e-10) = true /\
  (0x1p+52 <? rejectionProbability m) = true /\
  (arrivalRate Inputs.overload * (1 - rejectionProbability m) <? 0) = true /\
  averageQueueLength m = 549755813887.5 /\
  averageSystemLength m = 549755813887.5 /\
  averageWaitTime m = 0 /\ averageSystemTime m = 0.
Proof. vm_compute. repeat split. Qed.

(** lambda = 100, mu = 1, c = 1, K = 1000: 100^1000 is Infinity, so P0 is
    0, and Pb = 0 * 100 * Infinity is NaN, as is lambda_eff; Wq and W are
    0. *)
Example long_queue_metrics :
  calculateP0 pow_int Inputs.long_queue = 0 /\
  calculateMetrics pow_int Inputs.long_queue =
    {| utilization := 100;
       averageQueueLength := nan;
       averageSystemLength := nan;
       averageWaitTime := 0;
       averageSystemTime := 0;
       rejectionProbability := nan;
       isStable := true |}.
Proof. vm_compute. repeat split. Qed.

(** There lambda_eff is not 0, and Wq is 0 where the statement has
    Lq/lambda_eff, which is NaN. *)
Example effective_rate_claim_fails_at_nan :
  ~ Claims.effective_rate_claim pow_int Inputs.long_queue.
Proof.
  intros (_ & _ & _ & H).
  assert (Hne : (arrivalRate Inputs.long_queue
                   * (1 - rejectionProbability (calculateMetrics pow_int Inputs.long_queue))
                   =? 0) = false) by (vm_compute; reflexivity).
  destruct (H Hne) as [Hwq _].
  apply (f_equal (fun x => x =? 0)) in Hwq. vm_compute in Hwq. discriminate Hwq.
Qed.

(** lambda = 2^60, mu = 1, c = 1, K = 3: Pb rounds to 1 and lambda_eff
    is 0. *)
Example flooded_metrics :
  calculateMetrics pow_int Inputs.flooded =
    {| utilization := 0x1p+60;
       averageQueueLength := 2;
       averageSystemLength := 2;
       averageWaitTime := 0;
       averageSystemTime := 0;
       rejectionProbability := 1;
       isStable := true |}.
Proof. vm_compute. reflexivity. Qed.

(** *** The theorems at concrete parameters *)

Lemma calculateP0_and_rejection_witness :
  (let p := Inputs.half_loaded in
   let a := arrivalRate p / serviceRate p in
   let rho := arrivalRate p / (of_Z (numServers p) * serviceRate p) in
   (abs (rho - 1) <? 1e-10) = false /\
   (numServers p < maxCapacity p)%Z /\
   calculateP0 pow_int p =
     1 / (Formulas.sum1 pow_int a (numServers p)
          + Formulas.load_term pow_int a (numServers p)
            * (1 - pow_int rho (of_Z (maxCapacity p) - of_Z (numServers p) + 1)) / (1 - rho)) /\
   calculateRejectionProbability pow_int p =
     calculateP0 pow_int p * Formulas.load_term pow_int a (numServers p)
     * pow_int rho (of_Z (maxCapacity p) - of_Z (numServers p))) /\
  (let p := Inputs.balanced in
   let a := arrivalRate p / serviceRate p in
   let rho := arrivalRate p / (of_Z (numServers p) * serviceRate p) in
   (abs (rho - 1) <? 1e-10) = true /\
   calculateP0 pow_int p =
     1 / (Formulas.sum1 pow_int a (numServers p)
          + Formulas.load_term pow_int a (numServers p)
            * (of_Z (maxCapacity p) - of_Z (numServers p) + 1))) /\
  (let p := Inputs.no_queue in
   let a := arrivalRate p / serviceRate p in
   (maxCapacity p <= numServers p)%Z /\
   calculateRejectionProbability pow_int p =
     calculateP0 pow_int p * pow_int a (of_Z (maxCapacity p))
     / Formulas.product_upto (Z.to_nat (maxCapacity p))).
Proof.
  cbv zeta.
  destruct (calculateP0_and_rejection pow_int Inputs.half_loaded) as (_ & H1 & _ & H2).
  destruct (calculateP0_and_rejection pow_int Inputs.balanced) as (H3 & _).
  destruct (calculateP0_and_rejection pow_int Inputs.no_queue) as (_ & _ & H4 & _).
  assert (E1 : (abs (arrivalRate Inputs.half_loaded
                     / (of_Z (numServers Inputs.half_loaded) * serviceRate Inputs.half_loaded)
                     - 1) <? 1e-10) = false) by reflexivity.
  assert (E2 : (numServers Inputs.half_loaded < maxCapacity Inputs.half_loaded)%Z)
    by reflexivity.
  assert (E3 : (abs (arrivalRate Inputs.balanced
                     / (of_Z (numServers Inputs.balanced) * serviceRate Inputs.balanced)
                     - 1) <? 1e-10) = true) by reflexivity.
  assert (E4 : (maxCapacity Inputs.no_queue <= numServers Inputs.no_queue)%Z)
    by (cbn; lia).
  split; [|split].
  - split; [exact E1|]. split; [exact E2|]. split; [exact (H1 E1)|exact (H2 E2)].
  - split; [exact E3|exact (H3 E3)].
  - split; [exact E4|exact (H4 E4)].
Defined.

Lemma calculateMetrics_effective_rate_witness :
  (let p := Inputs.half_loaded in
   let m := calculateMetrics pow_int p in
   let lambdaEff := arrivalRate p * (1 - rejectionProbability m) in
   (0 <? lambdaEff) = true /\
   averageSystemLength m = averageQueueLength m + lambdaEff / serviceRate p /\
   averageWaitTime m = averageQueueLength m / lambdaEff /\
   averageSystemTime m = averageSystemLength m / lambdaEff) /\
  (let p := Inputs.flooded in
   let m := calculateMetrics pow_int p in
   let lambdaEff := arrivalRate p * (1 - rejectionProbability m) in
   (lambdaEff =? 0) = true /\
   averageSystemLength m = averageQueueLength m + 0 /\
   averageWaitTime m = 0 /\ averageSystemTime m = 0).
Proof.
  cbv zeta.
  destruct (calculateMetrics_effective_rate pow_int Inputs.half_loaded)
    as (_ & _ & _ & Hpos & _ & _).
  destruct (calculateMetrics_effective_rate pow_int Inputs.flooded)
    as (_ & _ & _ & _ & _ & Hzero).
  assert (E1 : (0 <? arrivalRate Inputs.half_loaded
                     * (1 - rejectionProbability (calculateMetrics pow_int Inputs.half_loaded)))
               = true) by reflexivity.
  assert (E2 : (arrivalRate Inputs.flooded
                  * (1 - rejectionProbability (calculateMetrics pow_int Inputs.flooded))
                  =? 0) = true) by reflexivity.
  split.
  - split; [exact E1|exact (Hpos E1)].
  - split; [exact E2|exact (Hzero E2)].
Defined.

End MMCKQueueingModelProofs.

(** * Further properties *)

(** ** The engine, step by step *)

Module SimulationExtras.
Import Simulation Invariants SimulationProofs SimulationRun.

Lemma steps_succ (n : nat) (sim : QueueSimulation) (g : Rng) :
  steps (S n) sim g = steps n (fst (step sim g)) (snd (step sim g)).
Proof. cbn [steps]. unfold bind. destruct (step sim g). reflexivity. Qed.

(** A relation between the object before and after that every step keeps
    holds over any number of steps. *)
Lemma steps_rel (R : nat -> QueueSimulation -> QueueSimulation -> Prop) :
  (forall sim, R O sim sim) ->
  (forall n sim g sim', R n (fst (step sim g)) sim' -> R (S n) sim sim') ->
  forall n sim g, R n sim (fst (steps n sim g)).
Proof.
  intros H0 HS n. induction n as [|n IH]; intros sim g.
  - apply H0.
  - rewrite steps_succ. apply (HS n sim g). apply IH.
Qed.

(** The step counter over [n] steps. *)
Lemma steps_time (n : nat) (sim : QueueSimulation) (g : Rng) :
  timeSteps (state (fst (steps n sim g))) = timeSteps (state sim) + Z.of_nat n.
Proof.
  revert sim g. induction n as [|n IH]; intros sim g.
  - cbn. lia.
  - rewrite steps_succ. rewrite (IH (fst (step sim g)) (snd (step sim g))).
    rewrite step_state. cbn [state timeSteps]. lia.
Qed.

(** X1: every step adds 1 to [timeSteps]: after [n] steps from any state
    the step counter has grown by [n], whatever the draws and the
    configuration. *)
Theorem steps_timeSteps (n : nat) (sim : QueueSimulation) (g : Rng) :
  timeSteps (state (fst (steps n sim g))) = timeSteps (state sim) + Z.of_nat n.
Proof. exact (steps_time n sim g). Qed.

(** X2: a step admits at most one arrival and completes at most
    [numServers] services, and no counter ever goes down: over [n] steps
    from any state [totalArrivals] grows by between 0 and [n],
    [totalServed] by between 0 and [n * numServers], and
    [cumulativeQueueLength] does not decrease. *)
Theorem steps_counters (n : nat) (sim : QueueSimulation) (g : Rng) :
  0 <= numServers (config sim) ->
  let st := state sim in
  let st' := state (fst (steps n sim g)) in
  totalArrivals st <= totalArrivals st' <= totalArrivals st + Z.of_nat n /\
  totalServed st <= totalServed st' <= totalServed st + Z.of_nat n * numServers (config sim) /\
  cumulativeQueueLength st <= cumulativeQueueLength st'.
Proof.
  intros Hc. cbv zeta. revert sim g Hc. induction n as [|n IH]; intros sim g Hc.
  - cbn. lia.
  - rewrite steps_succ.
    specialize (IH (fst (step sim g)) (snd (step sim g))).
    rewrite step_config in IH. specialize (IH Hc).
    revert IH. rewrite step_state. cbn [state totalArrivals totalServed cumulativeQueueLength].
    match goal with
    | |- context [serviceTrials ?b ?p ?g1] =>
        pose proof (serviceTrials_range b p g1) as Hr;
        destruct (serviceTrials b p g1) as [k g2]
    end.
    cbn [fst] in *. rewrite Nat2Z.inj_succ.
    destruct (Qltb _ _); nia.
Qed.

(** The state of a run from the zero-initialised state. *)
Lemma steps_accounting (n : nat) :
  forall sim g,
    (0 <= queueLength (state sim) <= totalArrivals (state sim) /\
     0 <= timeSteps (state sim) /\
     0 <= cumulativeQueueLength (state sim)
       <= timeSteps (state sim) * totalArrivals (state sim)) ->
    let st' := state (fst (steps n sim g)) in
    0 <= queueLength st' <= totalArrivals st' /\
    0 <= timeSteps st' /\
    0 <= cumulativeQueueLength st' <= timeSteps st' * totalArrivals st'.
Proof.
  cbv zeta. induction n as [|n IH]; intros sim g Hinv; [exact Hinv|].
  rewrite steps_succ. apply IH. clear IH.
  rewrite step_state. cbn [state queueLength totalArrivals timeSteps cumulativeQueueLength].
  match goal with
  | |- context [serviceTrials ?b ?p ?g1] =>
      pose proof (serviceTrials_range b p g1) as Hr;
      destruct (serviceTrials b p g1) as [k g2]
  end.
  cbn [fst] in *.
  destruct (Qltb _ _); nia.
Qed.

(** X3: from the zero-initialised state the queue never holds more
    customers than have arrived, and no more than one arrives per step:
    0 <= queueLength <= totalArrivals <= n after [n] steps. *)
Theorem steps_queue_le_arrivals (cfg : SimulationConfig) (g : Rng) (n : nat) :
  let st := state (fst (steps n (construct cfg) g)) in
  0 <= queueLength st <= totalArrivals st /\ totalArrivals st <= Z.of_nat n.
Proof.
  cbv zeta.
  destruct (steps_accounting n (construct cfg) g) as (Hq & _).
  { cbn. lia. }
  split; [exact Hq|].
  clear Hq.
  assert (H : forall m sim g0,
             totalArrivals (state (fst (steps m sim g0)))
             <= totalArrivals (state sim) + Z.of_nat m).
  { induction m as [|m IH]; intros sim g0.
    - cbn. lia.
    - rewrite steps_succ. specialize (IH (fst (step sim g0)) (snd (step sim g0))).
      revert IH. rewrite step_state. cbn [state totalArrivals].
      rewrite Nat2Z.inj_succ. destruct (Qltb _ _); lia. }
  specialize (H n (construct cfg) g). cbn in H. exact H.
Qed.

(** X4: after any number of steps from the zero-initialised state
    [getAverageQueueLength()] is a finite number between 0 and
    [totalArrivals]. *)
Theorem average_queue_bounds (cfg : SimulationConfig) (g : Rng) (n : nat) :
  let sim := fst (steps n (construct cfg) g) in
  exists q : Q,
    getAverageQueueLength sim = Fin q /\
    (0 <= q <= inject_Z (totalArrivals (state sim)))%Q.
Proof.
  cbv zeta.
  destruct (steps_accounting n (construct cfg) g) as (Hq & Hts & Hcum).
  { cbn. lia. }
  set (st := state (fst (steps n (construct cfg) g))) in *.
  unfold getAverageQueueLength. fold st.
  destruct (Z.eqb_spec (timeSteps st) 0) as [E|E].
  - exists 0%Q. split; [reflexivity|]. split; [apply Qle_refl|].
    change 0%Q with (inject_Z 0). rewrite <- Zle_Qle. lia.
  - eexists. split.
    + unfold div, of_Z. rewrite inject_Z_nonzero by exact E. reflexivity.
    + assert (Hpos : (0 < inject_Z (timeSteps st))%Q).
      { change 0%Q with (inject_Z 0). rewrite <- Zlt_Qlt. lia. }
      split.
      * apply Qle_shift_div_l; [exact Hpos|]. rewrite Qmult_0_l.
        change 0%Q with (inject_Z 0). rewrite <- Zle_Qle. lia.
      * apply Qle_shift_div_r; [exact Hpos|].
        rewrite <- inject_Z_mult, <- Zle_Qle. lia.
Qed.

(** X5: with a single server the accounting of the engine is exact after
    every step: the customers that arrived and were not served are the
    queue, at most one server is busy, and none is busy when the queue is
    empty. *)
Theorem single_server_accounting (cfg : SimulationConfig) (g : Rng) (n : nat) :
  numServers cfg = 1 ->
  let st := state (fst (steps n (construct cfg) g)) in
  totalArrivals st - totalServed st = queueLength st /\
  0 <= queueLength st /\
  0 <= serversBusy st <= 1 /\
  (queueLength st = 0 -> serversBusy st = 0).
Proof.
  intros Hc. cbv zeta.
  apply (steps_single_server n (construct cfg) g Hc).
  unfold single_server_inv. cbn. lia.
Qed.

(** X6: [reset()] after a run of any length leaves the object as a newly
    constructed one with the current configuration: every state field is
    back to zero and the configuration is kept. *)
Theorem reset_after_run (n : nat) (sim : QueueSimulation) (g : Rng) :
  reset (fst (steps n sim g)) = construct (config sim).
Proof. unfold reset, construct. rewrite steps_config. reflexivity. Qed.

(** X7: a configuration change takes effect at the next step and is kept
    by it: after [updateConfig(partial)] and one [step()], the
    configuration is the merged one, the clock has advanced by the merged
    [timeStep], and [serversBusy] is within the merged [numServers],
    whatever it was before. *)
Theorem step_after_updateConfig (sim : QueueSimulation) (partial : PartialConfig) (g : Rng) :
  let merged := config (updateConfig sim partial) in
  let sim' := fst (step (updateConfig sim partial) g) in
  0 <= numServers merged ->
  config sim' = merged /\
  currentTime (state sim') = (currentTime (state sim) + timeStep merged)%Q /\
  0 <= serversBusy (state sim') <= numServers merged.
Proof.
  cbv zeta. intros Hc. split; [apply step_config|]. split.
  - rewrite step_state. reflexivity.
  - apply (step_in_bounds (updateConfig sim partial) g Hc).
Qed.

(** *** [simulate] *)

Lemma Qltb_true (x y : Q) : Qltb x y = true <-> (x < y)%Q.
Proof.
  unfold Qltb. rewrite Qlt_alt. destruct (x ?= y)%Q; split; congruence.
Qed.

Lemma Qltb_false (x y : Q) : Qltb x y = false <-> (y <= x)%Q.
Proof.
  rewrite <- Bool.not_true_iff_false, Qltb_true. split.
  - apply Qnot_lt_le.
  - apply Qle_not_lt.
Qed.

Lemma simulate_loop_succ (fuel : nat) (target : Q) (sim : QueueSimulation)
    (samples : list Z) (g : Rng) :
  simulate_loop (S fuel) target sim samples g =
  if Qltb (currentTime (state sim)) target
  then simulate_loop fuel target (fst (step sim g))
         (samples ++ [queueLength (state (fst (step sim g)))]) (snd (step sim g))
  else (Some (samples, sim), g).
Proof.
  cbn [simulate_loop]. destruct (Qltb _ _); [|reflexivity].
  unfold bind. destruct (step sim g). reflexivity.
Qed.

(** X9: a duration that is not positive is a no-op: [simulate] returns no
    sample, takes no step and draws no random number, whatever the
    configuration. *)
Theorem simulate_nothing (fuel : nat) (duration : Q) (sim : QueueSimulation) (g : Rng) :
  (duration <= 0)%Q ->
  simulate (S fuel) duration sim g = (Some ([], sim), g).
Proof.
  intros Hd. unfold simulate. cbv zeta. rewrite simulate_loop_succ.
  rewrite (proj2 (Qltb_false _ _)); [reflexivity|]. lra.
Qed.

(** *** Concrete runs *)

Lemma steps_counters_witness :
  0 <= numServers Runs.two_servers /\
  totalServed (state (fst (steps 2 (construct Runs.two_servers)
                                  Runs.one_arrival_two_completions)))
    <= 0 + Z.of_nat 2 * numServers Runs.two_servers.
Proof.
  assert (Hc : 0 <= numServers (config (construct Runs.two_servers))) by (cbn; lia).
  split; [exact Hc|].
  exact (proj2 (proj1 (proj2 (steps_counters 2 (construct Runs.two_servers)
                                Runs.one_arrival_two_completions Hc)))).
Defined.

Lemma single_server_accounting_witness :
  numServers Runs.one_server = 1 /\
  let st := state (fst (steps 3 (construct Runs.one_server) Runs.arrivals_only)) in
  totalArrivals st - totalServed st = queueLength st.
Proof.
  split; [reflexivity|].
  exact (proj1 (single_server_accounting Runs.one_server Runs.arrivals_only 3 eq_refl)).
Defined.

Lemma step_after_updateConfig_witness :
  let sim := fst (steps 2 (construct Runs.two_servers) Runs.one_arrival_two_completions) in
  let sim' := fst (step (updateConfig sim Samples.three_servers) Runs.arrivals_only) in
  numServers (config sim') = 3 /\ 0 <= serversBusy (state sim') <= 3.
Proof.
  cbv zeta.
  destruct (step_after_updateConfig
              (fst (steps 2 (construct Runs.two_servers) Runs.one_arrival_two_completions))
              Samples.three_servers Runs.arrivals_only) as (Hcfg & _ & Hb).
  - cbn. lia.
  - rewrite Hcfg. split; [reflexivity|exact Hb].
Defined.

Lemma simulate_nothing_witness :
  simulate 1 (- (1)) (construct Runs.two_servers) Runs.arrivals_only =
  (Some ([], construct Runs.two_servers), Runs.arrivals_only).
Proof.
  apply (simulate_nothing 0 (- (1)) (construct Runs.two_servers) Runs.arrivals_only).
  apply Qle_bool_imp_le. reflexivity.
Defined.

End SimulationExtras.

(** ** The M/M/c model on exact numbers *)

Module QueueingModelExtras.
Import QueueingModel NumFacts QueueingModelProofs.
Local Open Scope Q_scope.

(** X12: [calculateMetrics] agrees with the five separate functions on
    every input, stable or not: each field of the record is what the
    function of that name returns, and [isStable] is [isSystemStable]. *)
Theorem calculateMetrics_fields (p : QueueingParameters) :
  let m := calculateMetrics p in
  utilization m = calculateUtilization p /\
  averageQueueLength m = calculateAverageQueueLength p /\
  averageSystemLength m = calculateAverageSystemLength p /\
  averageWaitTime m = calculateAverageWaitTime p /\
  averageSystemTime m = calculateAverageSystemTime p /\
  isStable m = isSystemStable p.
Proof.
  cbv zeta. unfold calculateMetrics, calculateAverageQueueLength,
    calculateAverageSystemLength, calculateAverageWaitTime, calculateAverageSystemTime.
  cbv zeta. destruct (isSystemStable p); cbn; repeat split.
Qed.

(** X16: no parameter is validated.  With [serviceRate] = 0 (a positive
    zero), a positive arrival rate and at least one server, the division
    gives a utilisation of +Infinity and the model reports the system as
    unstable: every derived metric is +Infinity and Erlang C is 1. *)
Theorem zero_service_rate (p : QueueingParameters) :
  serviceRate p == 0 -> 0 < arrivalRate p -> (1 <= numServers p)%Z ->
  calculateMetrics p =
    {| utilization := PosInf;
       averageQueueLength := PosInf;
       averageSystemLength := PosInf;
       averageWaitTime := PosInf;
       averageSystemTime := PosInf;
       isStable := false |} /\
  calculateErlangC p = Fin 1.
Proof.
  intros Hmu Hlam Hc.
  assert (Hsgn : sgn (Fin (arrivalRate p)) = 1%Z).
  { cbn [sgn]. unfold Qlt in Hlam. cbn in Hlam. lia. }
  assert (Hu : calculateUtilization p = PosInf).
  { unfold calculateUtilization, of_Z. cbn [mul]. unfold div.
    replace (Qeq_bool (serviceRate p * inject_Z (numServers p)) 0) with true.
    - rewrite Hsgn. reflexivity.
    - symmetry. apply Qeq_bool_iff. rewrite Hmu. ring. }
  split.
  - unfold calculateMetrics, isSystemStable. cbv zeta. rewrite Hu. reflexivity.
  - unfold calculateErlangC. cbv zeta. unfold div.
    replace (Qeq_bool (serviceRate p) 0) with true
      by (symmetry; apply Qeq_bool_iff; exact Hmu).
    rewrite Hsgn. reflexivity.
Qed.

(** *** Concrete parameters *)

Lemma zero_service_rate_witness :
  utilization (calculateMetrics Samples.no_service) = PosInf /\
  isStable (calculateMetrics Samples.no_service) = false.
Proof.
  destruct (zero_service_rate Samples.no_service) as [H _].
  - reflexivity.
  - reflexivity.
  - cbn. lia.
  - rewrite H. split; reflexivity.
Defined.

End QueueingModelExtras.

(** ** The model classes in binary64 *)

Module Binary64Extras.
Import PrimFloat Binary64 MMCQueueingModel Binary64Facts MMCQueueingModelProofs.
Local Open Scope float_scope.

Lemma factorial_exact (k : nat) :
  (k <= 22)%nat -> to_Z (factorial (Z.of_nat k)) = Some (Formulas.factorial_Z k).
Proof.
  intros Hk.
  do 23 (destruct k as [|k]; [vm_compute; reflexivity|]). lia.
Qed.

(** X11: [factorial n] is 1 for every [n <= 1], negative ones included,
    and the product of 1, 2, ..., n accumulated in binary64 otherwise.
    The product is n! exactly up to n = 22; at n = 23 it is
    25852016738884978212864, not 23!; at n = 171 it is Infinity. *)
Theorem factorial_values (n : Z) :
  ((n <= 1)%Z -> factorial n = 1) /\
  factorial n = Formulas.product_upto (Z.to_nat n) /\
  ((0 <= n <= 22)%Z -> to_Z (factorial n) = Some (Formulas.factorial_Z (Z.to_nat n))) /\
  (to_Z (factorial 23) = Some 25852016738884978212864%Z /\
   Formulas.factorial_Z 23 = 25852016738884976640000%Z) /\
  factorial 171 = infinity.
Proof.
  split; [|split; [|split; [|split; [split|]]]].
  - intros Hn. unfold factorial. destruct (Z.leb_spec n 1) as [_|H]; [reflexivity|lia].
  - apply factorial_product.
  - intros Hn. rewrite <- (Z2Nat.id n) at 1 by lia. apply factorial_exact. lia.
  - vm_compute. reflexivity.
  - vm_compute. reflexivity.
  - vm_compute. reflexivity.
Qed.

(** X26: whenever the utilisation that [calculateMetrics] computes is below
    1, it returns isStable = true, that utilisation, and the binary64
    values of Lq = (ErlangC * rho) / (1 - rho), L = Lq + lambda/mu,
    Wq = Lq/lambda and W = L/lambda, for every [Math.pow]. *)
Theorem stable_metrics_expressions (Math_pow : number -> number -> number)
    (p : QueueingParameters) :
  isSystemStable p = true ->
  let lam := arrivalRate p in
  let mu := serviceRate p in
  let rho := lam / (mu * of_Z (numServers p)) in
  let m := calculateMetrics Math_pow p in
  isStable m = true /\
  utilization m = rho /\
  averageQueueLength m = calculateErlangC Math_pow p * rho / (1 - rho) /\
  averageSystemLength m = averageQueueLength m + lam / mu /\
  averageWaitTime m = averageQueueLength m / lam /\
  averageSystemTime m = averageSystemLength m / lam.
Proof.
  intros Hst. cbv zeta.
  unfold calculateMetrics, calculateAverageSystemTime, calculateAverageWaitTime,
    calculateAverageSystemLength, calculateAverageQueueLength. cbv zeta.
  rewrite Hst. cbn. repeat split.
Qed.

(** X27: [calculateErlangC] returns exactly 1 when the offered load
    a = lambda/mu, as computed, is at least c, and otherwise, when a < c
    in particular, the binary64 value of numerator / (sum + numerator) with
    numerator = (a^c/c!) * (c/(c - a)) and sum the sum of a^k/k! for k from
    0 to c - 1, for every [Math.pow]. *)
Theorem calculateErlangC_cases (Math_pow : number -> number -> number)
    (p : QueueingParameters) :
  let a := arrivalRate p / serviceRate p in
  let c := numServers p in
  ((of_Z c <=? a) = true -> calculateErlangC Math_pow p = 1) /\
  ((of_Z c <=? a) = false -> calculateErlangC Math_pow p = Formulas.erlangC Math_pow a c) /\
  ((a <? of_Z c) = true -> calculateErlangC Math_pow p = Formulas.erlangC Math_pow a c).
Proof.
  cbv zeta. split; [|split].
  - intros H. unfold calculateErlangC. cbv zeta. rewrite H. reflexivity.
  - apply erlangC_formula.
  - intros H. apply erlangC_formula. apply ltb_not_leb. exact H.
Qed.

(** *** The theorems at concrete parameters *)

Lemma factorial_values_witness :
  factorial (-3) = 1 /\ to_Z (factorial 5) = Some 120%Z.
Proof.
  split.
  - apply (proj1 (factorial_values (-3))). lia.
  - apply (proj1 (proj2 (proj2 (factorial_values 5)))). lia.
Defined.

Lemma stable_metrics_expressions_witness :
  isSystemStable Inputs.mm1 = true /\
  averageWaitTime (calculateMetrics pow_int Inputs.mm1) =
    averageQueueLength (calculateMetrics pow_int Inputs.mm1) / arrivalRate Inputs.mm1.
Proof.
  assert (Hst : isSystemStable Inputs.mm1 = true) by reflexivity.
  split; [exact Hst|].
  exact (proj1 (proj2 (proj2 (proj2 (proj2 (stable_metrics_expressions pow_int Inputs.mm1 Hst)))))).
Defined.

Lemma calculateErlangC_cases_witness :
  calculateErlangC pow_int Inputs.rounded_load = 1 /\
  calculateErlangC pow_int Inputs.mm1 =
    Formulas.erlangC pow_int (arrivalRate Inputs.mm1 / serviceRate Inputs.mm1) 1.
Proof.
  split.
  - apply (proj1 (calculateErlangC_cases pow_int Inputs.rounded_load)). reflexivity.
  - apply (proj2 (proj2 (calculateErlangC_cases pow_int Inputs.mm1))). reflexivity.
Defined.

End Binary64Extras.

(** ** The chart and the timer *)

Module ChartExtras.
Import ChartRenderer.
Local Open Scope Q_scope.

Lemma Math_max_last (values : list Q) (last : Q) : last <= Math_max values last.
Proof.
  induction values as [|v values IH]; cbn [Math_max fold_right].
  - apply Qle_refl.
  - apply Qle_trans with (fold_right Qmax last values); [exact IH|]. apply Q.le_max_r.
Qed.

Lemma Math_max_In (values : list Q) (last v : Q) :
  In v values -> v <= Math_max values last.
Proof.
  induction values as [|w values IH]; intros Hin; [contradiction|].
  cbn [Math_max fold_right]. destruct Hin as [->|Hin].
  - apply Q.le_max_l.
  - apply Qle_trans with (fold_right Qmax last values); [apply IH; exact Hin|].
    apply Q.le_max_r.
Qed.

Lemma unit_fraction (v m : Q) : 0 <= v -> v <= m -> 0 < m -> 0 <= v / m <= 1.
Proof.
  intros Hv Hvm Hm. split.
  - apply Qle_shift_div_l; lra.
  - apply Qle_shift_div_r; lra.
Qed.

(** X23: the scales of the chart never divide by zero and keep the line
    inside the chart area: [maxTime >= 60] and [maxQueue >= 10] whatever
    the data, and every data point with a time and a queue length that
    are not negative is mapped between the left and right edges and
    between the top and bottom edges of an area of non-negative size. *)
Theorem scales_within_area (data : list DataPoint) (chartArea : ChartArea) (d : DataPoint) :
  In d data ->
  0 <= time d -> 0 <= queueLength d ->
  0 <= area_width chartArea -> 0 <= area_height chartArea ->
  let scales := calculateScales data chartArea in
  60 <= maxTime scales /\ 10 <= maxQueue scales /\
  area_x chartArea <= scale_x scales (time d) <= area_x chartArea + area_width chartArea /\
  area_y chartArea <= scale_y scales (queueLength d)
    <= area_y chartArea + area_height chartArea.
Proof.
  intros Hin Ht Hq Hw Hh. cbv zeta. unfold calculateScales. cbn [maxTime maxQueue scale_x scale_y].
  pose proof (Math_max_last (map time data) 60) as HT.
  pose proof (Math_max_last (map queueLength data) 10) as HQ.
  pose proof (Math_max_In (map time data) 60 (time d) (in_map time data d Hin)) as HdT.
  pose proof (Math_max_In (map queueLength data) 10 (queueLength d)
                (in_map queueLength data d Hin)) as HdQ.
  set (mt := Math_max (map time data) 60) in *.
  set (mq := Math_max (map queueLength data) 10) in *.
  clearbody mt mq.
  destruct (unit_fraction (time d) mt Ht HdT ltac:(lra)) as [Hx0 Hx1].
  destruct (unit_fraction (queueLength d) mq Hq HdQ ltac:(lra)) as [Hy0 Hy1].
  set (fx := time d / mt) in *. set (fy := queueLength d / mq) in *.
  clearbody fx fy.
  assert (0 <= fx * area_width chartArea) by (apply Qmult_le_0_compat; assumption).
  assert (fx * area_width chartArea <= 1 * area_width chartArea)
    by (apply Qmult_le_compat_r; assumption).
  assert (0 <= fy * area_height chartArea) by (apply Qmult_le_0_compat; assumption).
  assert (fy * area_height chartArea <= 1 * area_height chartArea)
    by (apply Qmult_le_compat_r; assumption).
  repeat split; lra.
Qed.

Lemma scales_within_area_witness :
  let area := getChartArea Samples.DEFAULT_CHART_CONFIG in
  let scales := calculateScales [Samples.origin; Samples.late_point] area in
  area_x area <= scale_x scales (time Samples.late_point) <= area_x area + area_width area /\
  area_y area <= scale_y scales (queueLength Samples.late_point)
    <= area_y area + area_height area.
Proof.
  cbv zeta.
  destruct (scales_within_area [Samples.origin; Samples.late_point]
              (getChartArea Samples.DEFAULT_CHART_CONFIG) Samples.late_point)
    as (_ & _ & Hx & Hy).
  - right. left. reflexivity.
  - apply Qle_bool_imp_le. reflexivity.
  - apply Qle_bool_imp_le. reflexivity.
  - apply Qle_bool_imp_le. reflexivity.
  - apply Qle_bool_imp_le. reflexivity.
  - split; assumption.
Defined.

(** With the default configuration the point (90 s, 3 customers) is drawn
    at the right edge, x = 780, and at y = 258. *)
Example late_point_pixels :
  let scales := calculateScales [Samples.origin; Samples.late_point]
                  (getChartArea Samples.DEFAULT_CHART_CONFIG) in
  scale_x scales 90 == 780 /\ scale_y scales 3 == 258.
Proof. vm_compute. split; reflexivity. Qed.

End ChartExtras.

Module AppExtras.
Import Simulation SimulationProofs SimulationExtras App.

Lemma slice_last_length {A : Type} (n : nat) (l : list A) :
  length (slice_last n l) = Nat.min (length l) n.
Proof. unfold slice_last. rewrite length_skipn. lia. Qed.

Lemma slice_last_last {A : Type} (n : nat) (l : list A) (x d : A) :
  (0 < n)%nat -> last (slice_last n (l ++ [x])) d = x.
Proof.
  intros Hn. unfold slice_last. rewrite length_app. cbn [length].
  destruct (Nat.le_gt_cases (length l + 1 - n) (length l)) as [Hle|Hgt]; [|lia].
  rewrite skipn_app.
  replace (length l + 1 - n - length l)%nat with 0%nat by lia.
  cbn [skipn]. apply last_last.
Qed.

Lemma steps_queue_nonneg (k : nat) :
  forall sim g,
    0 <= queueLength (state sim) ->
    0 <= queueLength (state (fst (steps k sim g))).
Proof.
  induction k as [|k IH]; intros sim g Hq; [exact Hq|].
  rewrite steps_succ. apply IH. rewrite step_state. cbn. lia.
Qed.

(** X24: the history kept for the chart is a rolling window: recording a
    sample appends it as the last point and keeps at most the last 600
    points, dropping only the oldest ones. *)
Theorem record_sample_window (prevData : list ChartRenderer.DataPoint)
    (currentTime : Q) (queueLength : Z) (d : ChartRenderer.DataPoint) :
  let sample := {| ChartRenderer.time := currentTime;
                   ChartRenderer.queueLength := inject_Z queueLength |} in
  let newData := record_sample prevData currentTime queueLength in
  length newData = Nat.min (length prevData + 1) 600 /\
  last newData d = sample /\
  exists dropped, prevData ++ [sample] = dropped ++ newData.
Proof.
  cbv zeta. unfold record_sample. cbv zeta. split; [|split].
  - rewrite slice_last_length, length_app. reflexivity.
  - apply slice_last_last. lia.
  - eexists. unfold slice_last. symmetry. apply firstn_skipn.
Qed.

(** X25: one tick of the page's timer advances the engine by
    [ceil(simulationSpeed)] steps and plots the engine's own clock and
    queue length: the step counter grows by that number, the plotted point
    is the clock and the queue length of the engine after those steps, the
    queue length is not negative, and the history keeps at most 600
    points. *)
Theorem tick_sample (simulationSpeed : Q) (sim : QueueSimulation)
    (data : list ChartRenderer.DataPoint) (g : Rng) (d : ChartRenderer.DataPoint) :
  (0 < simulationSpeed)%Q ->
  let n := Qceiling simulationSpeed in
  let sim' := fst (fst (tick simulationSpeed sim data g)) in
  let data' := snd (fst (tick simulationSpeed sim data g)) in
  0 < n /\
  sim' = fst (steps (Z.to_nat n) sim g) /\
  timeSteps (state sim') = timeSteps (state sim) + n /\
  ChartRenderer.time (last data' d) = currentTime (state sim') /\
  ChartRenderer.queueLength (last data' d) = inject_Z (queueLength (state sim')) /\
  0 <= queueLength (state sim') /\
  length data' = Nat.min (length data + 1) 600.
Proof.
  intros Hspeed. cbv zeta.
  assert (Hn : 0 < Qceiling simulationSpeed).
  { pose proof (Qle_ceiling simulationSpeed) as Hc.
    assert (H0 : (0 < inject_Z (Qceiling simulationSpeed))%Q) by lra.
    change 0%Q with (inject_Z 0) in H0. rewrite <- Zlt_Qlt in H0. exact H0. }
  unfold tick, bind, ret. cbv zeta.
  destruct (steps (Z.to_nat (Qceiling simulationSpeed)) sim g) as [sim' g'] eqn:E.
  cbn [fst snd].
  assert (Hsim : sim' = fst (steps (Z.to_nat (Qceiling simulationSpeed)) sim g))
    by (rewrite E; reflexivity).
  pose proof (steps_time (Z.to_nat (Qceiling simulationSpeed)) sim g) as Hts.
  rewrite <- Hsim in Hts. rewrite Z2Nat.id in Hts by lia.
  split; [exact Hn|]. split; [reflexivity|]. split; [exact Hts|].
  unfold record_sample. cbv zeta. rewrite slice_last_last by lia.
  cbn [ChartRenderer.time ChartRenderer.queueLength].
  unfold getCurrentTime, getQueueLength.
  split; [reflexivity|]. split; [reflexivity|]. split.
  - rewrite Hsim.
    replace (Z.to_nat (Qceiling simulationSpeed))
      with (S (Nat.pred (Z.to_nat (Qceiling simulationSpeed)))) by lia.
    rewrite steps_succ. apply steps_queue_nonneg.
    rewrite step_state. cbn. lia.
  - rewrite slice_last_length, length_app. reflexivity.
Qed.

Lemma tick_sample_witness :
  (0 < 1 # 2)%Q /\
  timeSteps (state (fst (fst (tick (1 # 2) (construct Runs.two_servers) [Samples.origin]
                                Runs.arrivals_only)))) = 0 + Qceiling (1 # 2) /\
  length (snd (fst (tick (1 # 2) (construct Runs.two_servers) [Samples.origin]
                      Runs.arrivals_only))) = Nat.min (length [Samples.origin] + 1) 600.
Proof.
  assert (H : (0 < 1 # 2)%Q) by reflexivity.
  split; [exact H|].
  destruct (tick_sample (1 # 2) (construct Runs.two_servers) [Samples.origin]
              Runs.arrivals_only Samples.origin H) as (_ & _ & Hts & _ & _ & _ & Hlen).
  split; [exact Hts|exact Hlen].
Defined.

End AppExtras.
